(** * The Attio MCP server (mcp_servers/attio/index.ts)

    A shallow embedding of the CRM-integration server: the Attio API client
    (the backend adapter), the tool catalog, the tool-call handler (the
    dispatcher) and the two HTTP transports with their session map.

    Conventions of the embedding.
    - A JavaScript string is a [string] (a sequence of bytes); [toLowerCase]
      and [trim] are the runtime's functions on strings in the ASCII range
      and leave other bytes alone, which the runtime does not: a statement
      that depends on them is made for ASCII text ([ascii_only]).
    - A JavaScript number is a [Z]; its decimal rendering is stdpp's [pretty],
      which is the runtime's on the safe integers, those of magnitude up to
      2^53 - 1: a statement that fixes the text of a number is made for safe
      integers ([safe_integer]). Numbers with a fraction have no value here.
    - A value produced by [JSON.parse] or [response.json()] is a [JSON] tree;
      an object keeps its own properties in enumeration order, each key once.
    - A thrown [Error] is its [message]; code that may throw or call the
      backend lives in the monad [M], which threads the list of outbound
      HTTP requests issued so far. *)

From Stdlib Require Import Ascii String ZArith List Bool.
From stdpp Require Import gmap strings list fin_maps pretty.

Local Open Scope string_scope.
Local Open Scope list_scope.
Local Open Scope Z_scope.

(** ** JavaScript strings *)

Module Js.

Definition dquote : ascii := "034"%char.
Definition backslash : ascii := "092"%char.
Definition newline : ascii := "010"%char.

Definition str (c : ascii) : string := String c "".

(** [String.prototype.toLowerCase], ASCII letters only. *)
Definition lower_char (c : ascii) : ascii :=
  let n := nat_of_ascii c in
  if ((65 <=? n) && (n <=? 90))%nat then ascii_of_nat (n + 32) else c.

Fixpoint toLowerCase (s : string) : string :=
  match s with
  | "" => ""
  | String c s' => String (lower_char c) (toLowerCase s')
  end.

(** White space removed by [String.prototype.trim] (ASCII range):
    TAB, LF, VT, FF, CR and SPACE. *)
Definition is_space (c : ascii) : bool :=
  let n := nat_of_ascii c in
  ((9 <=? n) && (n <=? 13) || (n =? 32))%nat.

Fixpoint trimStart (s : string) : string :=
  match s with
  | "" => ""
  | String c s' => if is_space c then trimStart s' else s
  end.

Fixpoint trimEnd (s : string) : string :=
  match s with
  | "" => ""
  | String c s' =>
      match trimEnd s' with
      | "" => if is_space c then "" else str c
      | t => String c t
      end
  end.

Definition trim (s : string) : string := trimEnd (trimStart s).

(** [s.includes(q)]: [q] occurs in [s] as a contiguous run. *)
Fixpoint includes (s q : string) : bool :=
  String.prefix q s ||
  match s with
  | "" => false
  | String _ s' => includes s' q
  end.

(** Truthiness of a string: every string but the empty one. *)
Definition truthy (s : string) : bool :=
  match s with "" => false | _ => true end.

(** [a || b] on possibly undefined strings, as in
    [process.env.X || req.headers.y]: the first truthy operand. *)
Definition or_else (a b : option string) : option string :=
  match a with
  | Some s => if truthy s then Some s else
                match b with Some t => if truthy t then Some t else None | None => None end
  | None => match b with Some t => if truthy t then Some t else None | None => None end
  end.

(** [a || d] with a string default, as in [data.format || 'plaintext']. *)
Definition or_default (a : option string) (d : string) : string :=
  match a with
  | Some s => if truthy s then s else d
  | None => d
  end.

End Js.

(** ** JSON values and [JSON.stringify] *)

#[local] Set Warnings "-register-all".

Inductive JSON : Type :=
| JNull
| JBool (b : bool)
| JNum (n : Z)
| JStr (s : string)
| JArr (elems : list JSON)
| JObj (members : list (string * JSON)).

Module Json.

(** [o[k]] on the own properties of an object. *)
Fixpoint get (k : string) (members : list (string * JSON)) : option JSON :=
  match members with
  | [] => None
  | (k', v) :: rest => if String.eqb k k' then Some v else get k rest
  end.

(** [o[k] = v]: an existing key keeps its place, a new one goes last. *)
Fixpoint set (k : string) (v : JSON) (members : list (string * JSON))
  : list (string * JSON) :=
  match members with
  | [] => [(k, v)]
  | (k', v') :: rest =>
      if String.eqb k k' then (k, v) :: rest else (k', v') :: set k v rest
  end.

Definition hex_digit (n : nat) : ascii :=
  if (n <? 10)%nat then ascii_of_nat (48 + n) else ascii_of_nat (87 + n).

(** One code unit under QuoteJSONString. *)
Definition quote_char (c : ascii) : string :=
  let n := nat_of_ascii c in
  if (n =? 34)%nat then String Js.backslash (Js.str Js.dquote)
  else if (n =? 92)%nat then String Js.backslash (Js.str Js.backslash)
  else if (n =? 8)%nat then String Js.backslash "b"
  else if (n =? 9)%nat then String Js.backslash "t"
  else if (n =? 10)%nat then String Js.backslash "n"
  else if (n =? 12)%nat then String Js.backslash "f"
  else if (n =? 13)%nat then String Js.backslash "r"
  else if (n <? 32)%nat then
    String Js.backslash ("u00" +:+ String (hex_digit (n / 16)) (Js.str (hex_digit (n mod 16))))
  else Js.str c.

Fixpoint quote_body (s : string) : string :=
  match s with
  | "" => ""
  | String c s' => quote_char c +:+ quote_body s'
  end.

Definition quote (s : string) : string :=
  String Js.dquote (quote_body s +:+ Js.str Js.dquote).

(** SerializeJSONProperty with the running indentation [indent] and the
    per-level [gap]; [gap] is empty for [JSON.stringify(v)] and two spaces
    for [JSON.stringify(v, null, 2)]. *)
Fixpoint serialize (gap indent : string) (v : JSON) : string :=
  match v with
  | JNull => "null"
  | JBool b => if b then "true" else "false"
  | JNum n => pretty n
  | JStr s => quote s
  | JArr elems =>
      let stepback := indent in
      let indent := indent +:+ gap in
      match map (serialize gap indent) elems with
      | [] => "[]"
      | partial =>
          if Js.truthy gap then
            let separator := "," +:+ String Js.newline indent in
            "[" +:+ String Js.newline indent +:+ String.concat separator partial
                +:+ String Js.newline stepback +:+ "]"
          else "[" +:+ String.concat "," partial +:+ "]"
      end
  | JObj members =>
      let stepback := indent in
      let indent := indent +:+ gap in
      let member (kv : string * JSON) :=
        quote (fst kv) +:+ ":" +:+ (if Js.truthy gap then " " else "")
              +:+ serialize gap indent (snd kv) in
      match map member members with
      | [] => "{}"
      | partial =>
          if Js.truthy gap then
            let separator := "," +:+ String Js.newline indent in
            "{" +:+ String Js.newline indent +:+ String.concat separator partial
                +:+ String Js.newline stepback +:+ "}"
          else "{" +:+ String.concat "," partial +:+ "}"
      end
  end.

(** [JSON.stringify(v)] *)
Definition stringify (v : JSON) : string := serialize "" "" v.

(** [JSON.stringify(v, null, 2)] *)
Definition stringify_pretty (v : JSON) : string := serialize "  " "" v.

End Json.

(** ** Outbound HTTP and the effect monad *)

(** What [fetch(url, init)] is called with. No caller in this file passes
    [options.headers], so the two fixed headers are all there is. *)
Record HttpRequest : Type := {
  url : string;
  method : string;
  headers : list (string * string);
  body : option string
}.

(** [Error.message] of a thrown error. *)
Definition Fault : Type := string.

(** A [Response]: [text] and [json] are what [await response.text()] and
    [await response.json()] give, either of which may reject. *)
Record HttpResponse : Type := {
  ok : bool;
  status : Z;
  statusText : string;
  text : Fault + string;
  json : Fault + JSON
}.

Inductive FetchOutcome : Type :=
| FetchRejects (message : Fault)
| FetchResolves (response : HttpResponse).

(** The wrapped backend: its answer to a request may depend on every
    request it has been sent before. *)
Definition Backend : Type := list HttpRequest -> HttpRequest -> FetchOutcome.

(** Computations that may throw and that record the outbound requests. *)
Definition M (A : Type) : Type :=
  list HttpRequest -> list HttpRequest * (Fault + A).

Definition ret {A} (a : A) : M A := fun sent => (sent, inr a).

Definition throw {A} (message : Fault) : M A := fun sent => (sent, inl message).

Definition bind {A B} (m : M A) (k : A -> M B) : M B :=
  fun sent =>
    match m sent with
    | (sent', inl e) => (sent', inl e)
    | (sent', inr a) => k a sent'
    end.

(** [try { m } catch (error) { handler(error.message) }] *)
Definition try_catch {A} (m : M A) (handler : Fault -> M A) : M A :=
  fun sent =>
    match m sent with
    | (sent', inl e) => handler e sent'
    | r => r
    end.

(** A pure step that may throw. *)
Definition lift {A} (r : Fault + A) : M A := fun sent => (sent, r).

Notation "x <- m ;; k" := (bind m (fun x => k))
  (at level 100, m at next level, right associativity).

(** ** The Attio API client *)

Definition ATTIO_API_URL : string := "https://api.attio.com/v2".

(** An [AttioClient] instance. [oid] is the identity of the object: the
    allocation number [new AttioClient(...)] gave it. *)
Record AttioClient : Type := {
  oid : nat;
  apiKey : string;
  baseUrl : string
}.

Record RequestInit : Type := {
  init_method : string;
  init_body : option string
}.

Section Adapter.

Variable backend : Backend.

Definition fetch (request : HttpRequest) : M HttpResponse :=
  fun sent =>
    (sent ++ [request],
     match backend sent request with
     | FetchRejects message => inl message
     | FetchResolves response => inr response
     end).

Definition makeRequest (this : AttioClient) (endpoint : string)
    (options : RequestInit) : M JSON :=
  let url := baseUrl this +:+ endpoint in
  let headers :=
    [("Authorization", "Bearer " +:+ apiKey this);
     ("Content-Type", "application/json")] in
  response <- fetch {| url := url; method := init_method options;
                       headers := headers; body := init_body options |} ;;
  if negb (ok response) then
    errorText <- lift (text response) ;;
    throw ("Attio API error: " +:+ pretty (status response) +:+ " "
             +:+ statusText response +:+ " - " +:+ errorText)
  else lift (json response).

(** [Object.keys(filters).length === 0] *)
Definition no_keys (filters : list (string * JSON)) : bool :=
  match filters with [] => true | _ => false end.

Definition searchPeople (this : AttioClient) (filters : list (string * JSON))
    (limit : Z) : M JSON :=
  if no_keys filters then
    makeRequest this "/objects/people/records/query"
      {| init_method := "POST";
         init_body := Some (Json.stringify (JObj [("limit", JNum limit)])) |}
  else
    makeRequest this "/objects/people/records/query"
      {| init_method := "POST";
         init_body := Some (Json.stringify
                              (JObj [("filter", JObj filters); ("limit", JNum limit)])) |}.

Definition searchCompanies (this : AttioClient) (filters : list (string * JSON))
    (limit : Z) : M JSON :=
  if no_keys filters then
    makeRequest this "/objects/companies/records/query"
      {| init_method := "POST";
         init_body := Some (Json.stringify (JObj [("limit", JNum limit)])) |}
  else
    makeRequest this "/objects/companies/records/query"
      {| init_method := "POST";
         init_body := Some (Json.stringify
                              (JObj [("filter", JObj filters); ("limit", JNum limit)])) |}.

Definition searchDeals (this : AttioClient) (filters : list (string * JSON))
    (limit : Z) : M JSON :=
  if no_keys filters then
    makeRequest this "/objects/deals/records/query"
      {| init_method := "POST";
         init_body := Some (Json.stringify (JObj [("limit", JNum limit)])) |}
  else
    makeRequest this "/objects/deals/records/query"
      {| init_method := "POST";
         init_body := Some (Json.stringify
                              (JObj [("filter", JObj filters); ("limit", JNum limit)])) |}.

(** [note[k]] for a value of unknown shape: reading a property of [null]
    throws a TypeError, a primitive or an array has no such property. *)
Definition get_property (note : JSON) (k : string) : Fault + option JSON :=
  match note with
  | JNull => inl ("Cannot read properties of null (reading '" +:+ k +:+ "')")
  | JObj members => inr (Json.get k members)
  | _ => inr None
  end.

(** [typeof v === 'string' && v.toLowerCase().includes(queryLower)] *)
Definition field_match (queryLower : string) (v : option JSON) : bool :=
  match v with
  | Some (JStr s) => Js.includes (Js.toLowerCase s) queryLower
  | _ => false
  end.

(** The callback given to [allNotes.data.filter]. *)
Definition note_filter (queryLower : string) (note : JSON) : Fault + bool :=
  match get_property note "title" with
  | inl e => inl e
  | inr title =>
      let titleMatch := field_match queryLower title in
      match get_property note "content_plaintext" with
      | inl e => inl e
      | inr content_plaintext =>
          let contentPlaintextMatch := field_match queryLower content_plaintext in
          match get_property note "content_markdown" with
          | inl e => inl e
          | inr content_markdown =>
              let contentMarkdownMatch := field_match queryLower content_markdown in
              inr (titleMatch || contentPlaintextMatch || contentMarkdownMatch)
          end
      end
  end.

(** [Array.prototype.filter] with a callback that may throw: elements are
    visited in order and the first throw ends the call. *)
Fixpoint array_filter (f : JSON -> Fault + bool) (l : list JSON)
  : Fault + list JSON :=
  match l with
  | [] => inr []
  | x :: rest =>
      match f x with
      | inl e => inl e
      | inr keep =>
          match array_filter f rest with
          | inl e => inl e
          | inr kept => inr (if keep then x :: kept else kept)
          end
      end
  end.

(** The type guard of [searchNotes]: the response is kept when it is an
    object with an array under [data], and replaced by [{data: []}]
    otherwise (an array is an object too, but has no [data] property). *)
Definition guard_notes (allNotesRaw : JSON) : list (string * JSON) :=
  match allNotesRaw with
  | JObj members =>
      match Json.get "data" members with
      | Some (JArr _) => members
      | _ => [("data", JArr [])]
      end
  | _ => [("data", JArr [])]
  end.

(** [allNotes.data] after the guard. *)
Definition notes_data (allNotes : list (string * JSON)) : list JSON :=
  match Json.get "data" allNotes with
  | Some (JArr notes) => notes
  | _ => []
  end.

(** [!query || query.trim() === ''] *)
Definition blank (query : string) : bool :=
  negb (Js.truthy query) || String.eqb (Js.trim query) "".

Definition searchNotes (this : AttioClient) (query : string) (limit : Z)
  : M JSON :=
  allNotesRaw <- makeRequest this ("/notes?limit=" +:+ pretty limit)
                   {| init_method := "GET"; init_body := None |} ;;
  let allNotes := guard_notes allNotesRaw in
  if blank query then ret (JObj allNotes)
  else
    let queryLower := Js.toLowerCase query in
    filteredNotes <- lift (array_filter (note_filter queryLower) (notes_data allNotes)) ;;
    ret (JObj (Json.set "data" (JArr filteredNotes) allNotes)).

(** Arguments of [createNote]. *)
Record NoteData : Type := {
  note_parent_object : string;
  note_parent_record_id : string;
  note_title : string;
  note_content : string;
  note_format : option string
}.

Definition createNote (this : AttioClient) (data : NoteData) : M JSON :=
  makeRequest this "/notes"
    {| init_method := "POST";
       init_body := Some (Json.stringify
         (JObj [("data", JObj
            [("parent_object", JStr (note_parent_object data));
             ("parent_record_id", JStr (note_parent_record_id data));
             ("title", JStr (note_title data));
             ("format", JStr (Js.or_default (note_format data) "plaintext"));
             ("content", JStr (note_content data))])])) |}.

(** Arguments of [createPerson] and [updatePerson]; the arrays were cast
    from [unknown], so their elements are arbitrary values. *)
Record PersonData : Type := {
  person_name : option string;
  person_email_addresses : option (list JSON);
  person_phone_numbers : option (list JSON);
  person_job_title : option string;
  person_description : option string
}.

(** Arguments of [createCompany] and [updateCompany]. *)
Record CompanyData : Type := {
  company_name : option string;
  company_domains : option (list JSON);
  company_description : option string
}.

(** [if (v) recordData[k] = v] for a string: set when defined and not empty. *)
Definition set_string (k : string) (v : option string)
    (recordData : list (string * JSON)) : list (string * JSON) :=
  match v with
  | Some s => if Js.truthy s then Json.set k (JStr s) recordData else recordData
  | None => recordData
  end.

(** [if (v) recordData[k] = f(v)] for an array: set when defined. *)
Definition set_array (k : string) (f : list JSON -> list JSON)
    (v : option (list JSON)) (recordData : list (string * JSON))
  : list (string * JSON) :=
  match v with
  | Some l => Json.set k (JArr (f l)) recordData
  | None => recordData
  end.

Definition phone_entry (phoneNumber : JSON) : JSON :=
  JObj [("original_phone_number", phoneNumber)].

Definition person_values (data : PersonData) : list (string * JSON) :=
  let recordData := [] in
  let recordData := set_string "name" (person_name data) recordData in
  let recordData :=
    set_array "email_addresses" (fun l => l) (person_email_addresses data) recordData in
  let recordData :=
    set_array "phone_numbers" (map phone_entry) (person_phone_numbers data) recordData in
  let recordData := set_string "job_title" (person_job_title data) recordData in
  set_string "description" (person_description data) recordData.

Definition company_values (data : CompanyData) : list (string * JSON) :=
  let recordData := [] in
  let recordData := set_string "name" (company_name data) recordData in
  let recordData := set_array "domains" (fun l => l) (company_domains data) recordData in
  set_string "description" (company_description data) recordData.

Definition values_body (recordData : list (string * JSON)) : option string :=
  Some (Json.stringify (JObj [("data", JObj [("values", JObj recordData)])])).

Definition createPerson (this : AttioClient) (data : PersonData) : M JSON :=
  makeRequest this "/objects/people/records"
    {| init_method := "POST"; init_body := values_body (person_values data) |}.

Definition createCompany (this : AttioClient) (data : CompanyData) : M JSON :=
  makeRequest this "/objects/companies/records"
    {| init_method := "POST"; init_body := values_body (company_values data) |}.

Definition updatePerson (this : AttioClient) (recordId : string)
    (data : PersonData) : M JSON :=
  makeRequest this ("/objects/people/records/" +:+ recordId)
    {| init_method := "PATCH"; init_body := values_body (person_values data) |}.

Definition updateCompany (this : AttioClient) (recordId : string)
    (data : CompanyData) : M JSON :=
  makeRequest this ("/objects/companies/records/" +:+ recordId)
    {| init_method := "PATCH"; init_body := values_body (company_values data) |}.

End Adapter.

(** ** The request context store *)

(** What [asyncLocalStorage] holds inside a [run] scope. *)
Record Store : Type := { attioClient : AttioClient }.

(** [getAttioClient()]; [store] is [asyncLocalStorage.getStore()], which is
    undefined outside every [run] scope. *)
Definition getAttioClient (store : option Store) : M AttioClient :=
  match store with
  | None => throw "Attio client not found in AsyncLocalStorage"
  | Some st => ret (attioClient st)
  end.

(** ** The tool catalog *)

Record Tool : Type := {
  name : string;
  description : string;
  inputSchema : JSON
}.

Module Schema.

Definition q : string := Js.str Js.dquote.

(** The nine bytes the source file holds after [Won ] in the stage list. *)
Definition won_suffix : string :=
  String "195" (String "176" (String "197" (String "184" (String "197"
    (String "189" (String "226" (String "128" (String "176" "")))))))).

Definition prop (type description : string) : JSON :=
  JObj [("type", JStr type); ("description", JStr description)].

Definition prop_default (type description : string) (default : JSON) : JSON :=
  JObj [("type", JStr type); ("description", JStr description); ("default", default)].

Definition string_array (description : string) : JSON :=
  JObj [("type", JStr "array");
        ("items", JObj [("type", JStr "string")]);
        ("description", JStr description)].

Definition object (properties : list (string * JSON)) : JSON :=
  JObj [("type", JStr "object"); ("properties", JObj properties)].

Definition object_required (properties : list (string * JSON))
    (required : list string) : JSON :=
  JObj [("type", JStr "object"); ("properties", JObj properties);
        ("required", JArr (map JStr required))].

End Schema.

Definition SEARCH_PEOPLE_TOOL : Tool := {|
  name := "attio_search_people";
  description := "Search for people in your Attio workspace with advanced filtering options. If no parameter other than limit is provided, it will search all people.";
  inputSchema := Schema.object
    [("query", Schema.prop "string" "Search query for people (searches across name, email, company, job title, description, etc.)");
     ("email", Schema.prop "string" "Filter by email address");
     ("limit", Schema.prop_default "number" "Maximum number of results to return (default: 25, max: 50)" (JNum 25))]
|}.

Definition SEARCH_COMPANIES_TOOL : Tool := {|
  name := "attio_search_companies";
  description := "Search for companies in your Attio workspace with filtering and sorting. If no parameter other than limit is provided, it will search all companies.";
  inputSchema := Schema.object
    [("query", Schema.prop "string" "Search query for companies (searches across name, domain, description, employees names, employees descriptions, etc.)");
     ("domain", Schema.prop "string" "Filter by company domain");
     ("limit", Schema.prop_default "number" "Maximum number of results to return (default: 25, max: 50)" (JNum 25))]
|}.

Definition SEARCH_DEALS_TOOL : Tool := {|
  name := "attio_search_deals";
  description := "Search for deals in your Attio workspace with stage and value filtering. If no parameter other than limit is provided, it will search all deals.";
  inputSchema := Schema.object
    [("name", Schema.prop "string" "Filter by deal name");
     ("stage", Schema.prop "string"
        ("Filter by deal stage (one of " +:+ Schema.q +:+ "Lead" +:+ Schema.q +:+ ", "
           +:+ Schema.q +:+ "In Progress" +:+ Schema.q +:+ ", "
           +:+ Schema.q +:+ "Won " +:+ Schema.won_suffix +:+ Schema.q +:+ ", "
           +:+ Schema.q +:+ "Lost" +:+ Schema.q +:+ ")"));
     ("minValue", Schema.prop "number" "Minimum deal value");
     ("maxValue", Schema.prop "number" "Maximum deal value");
     ("limit", Schema.prop_default "number" "Maximum number of results to return (default: 25, max: 50)" (JNum 25))]
|}.

Definition SEARCH_NOTES_TOOL : Tool := {|
  name := "attio_search_notes";
  description := "Search for notes across all objects in your Attio workspace by fetching all notes and filtering by content.";
  inputSchema := Schema.object
    [("query", Schema.prop "string" "Search query for notes content (searches title, plaintext content, and markdown content). Leave empty to get all notes.");
     ("limit", Schema.prop_default "number" "Maximum number of notes to fetch and search through (default: 50, max: 50)" (JNum 50))]
|}.

Definition CREATE_NOTE_TOOL : Tool := {|
  name := "attio_create_note";
  description := "Create a new note for a given record in Attio.";
  inputSchema := Schema.object_required
    [("parent_object",
      JObj [("type", JStr "string");
            ("description", JStr ("The object type to attach the note to (e.g., "
               +:+ Schema.q +:+ "people" +:+ Schema.q +:+ ", "
               +:+ Schema.q +:+ "companies" +:+ Schema.q +:+ ", "
               +:+ Schema.q +:+ "deals" +:+ Schema.q +:+ ")"));
            ("enum", JArr [JStr "people"; JStr "companies"; JStr "deals"])]);
     ("parent_record_id", Schema.prop "string" "The ID of the record to attach the note to");
     ("title", Schema.prop "string" "Title of the note");
     ("content", Schema.prop "string" "Content of the note");
     ("format",
      JObj [("type", JStr "string");
            ("description", JStr "Format of the note content");
            ("enum", JArr [JStr "plaintext"; JStr "markdown"]);
            ("default", JStr "plaintext")])]
    ["parent_object"; "parent_record_id"; "title"; "content"]
|}.

Definition CREATE_PERSON_TOOL : Tool := {|
  name := "attio_create_person";
  description := "Create a new person record in your Attio workspace.";
  inputSchema := Schema.object
    [("name", Schema.prop "string" "Full name of the person");
     ("email_addresses", Schema.string_array "Array of email addresses for the person");
     ("phone_numbers", Schema.string_array "Array of phone numbers for the person");
     ("job_title", Schema.prop "string" "Job title of the person");
     ("description", Schema.prop "string" "Description or notes about the person")]
|}.

Definition CREATE_COMPANY_TOOL : Tool := {|
  name := "attio_create_company";
  description := "Create a new company record in your Attio workspace.";
  inputSchema := Schema.object
    [("name", Schema.prop "string" "Name of the company");
     ("domains", Schema.string_array "Array of domain names associated with the company");
     ("description", Schema.prop "string" "Description of the company")]
|}.

Definition UPDATE_PERSON_TOOL : Tool := {|
  name := "attio_update_person";
  description := "Update an existing person record in your Attio workspace.";
  inputSchema := Schema.object_required
    [("record_id", Schema.prop "string" "ID of the person record to update");
     ("name", Schema.prop "string" "Full name of the person");
     ("email_addresses", Schema.string_array "Array of email addresses for the person");
     ("phone_numbers", Schema.string_array "Array of phone numbers for the person");
     ("job_title", Schema.prop "string" "Job title of the person");
     ("description", Schema.prop "string" "Description or notes about the person")]
    ["record_id"]
|}.

Definition UPDATE_COMPANY_TOOL : Tool := {|
  name := "attio_update_company";
  description := "Update an existing company record in your Attio workspace.";
  inputSchema := Schema.object_required
    [("record_id", Schema.prop "string" "ID of the company record to update");
     ("name", Schema.prop "string" "Name of the company");
     ("domains", Schema.string_array "Array of domain names associated with the company");
     ("description", Schema.prop "string" "Description of the company")]
    ["record_id"]
|}.

(** The array literal of the list-tools handler. *)
Definition tools : list Tool :=
  [SEARCH_PEOPLE_TOOL;
   SEARCH_COMPANIES_TOOL;
   SEARCH_DEALS_TOOL;
   SEARCH_NOTES_TOOL;
   CREATE_NOTE_TOOL;
   CREATE_PERSON_TOOL;
   CREATE_COMPANY_TOOL;
   UPDATE_PERSON_TOOL;
   UPDATE_COMPANY_TOOL].

(** The handler registered for [ListToolsRequestSchema]: an async function
    of no argument that returns [{ tools: [...] }]. *)
Definition ListToolsRequestHandler : M (list Tool) := ret tools.

(** ** The tool dispatcher *)

Inductive ContentBlock : Type :=
| TextContent (text : string).

(** The object a tool call returns; [isError] is [None] when the property
    is not set. *)
Record CallToolResult : Type := {
  content : list ContentBlock;
  isError : option bool
}.

(** The protocol reads an unset [isError] as false. *)
Definition is_error (r : CallToolResult) : bool :=
  match isError r with
  | Some b => b
  | None => false
  end.

(** [request.params.arguments]: a record of unknown values, or undefined. *)
Definition ToolArguments : Type := option (list (string * JSON)).

(** [args?.k] *)
Definition arg (args : ToolArguments) (k : string) : option JSON :=
  match args with
  | Some members => Json.get k members
  | None => None
  end.

(** [typeof v === 'string' ? v : undefined] *)
Definition as_string (v : option JSON) : option string :=
  match v with Some (JStr s) => Some s | _ => None end.

(** [typeof v === 'number' ? v : undefined] *)
Definition as_number (v : option JSON) : option Z :=
  match v with Some (JNum n) => Some n | _ => None end.

(** [Array.isArray(v) ? v : undefined] *)
Definition as_array (v : option JSON) : option (list JSON) :=
  match v with Some (JArr l) => Some l | _ => None end.

Definition contains (v : string) : JSON := JObj [("$contains", JStr v)].

Definition path_constraint (o1 a1 o2 a2 query : string) : JSON :=
  JObj [("path", JArr [JArr [JStr o1; JStr a1]; JArr [JStr o2; JStr a2]]);
        ("constraints", JObj [("$contains", JStr query)])].

(** The successful return of every case of the switch. *)
Definition text_result (result : JSON) : CallToolResult :=
  {| content := [TextContent (Json.stringify_pretty result)]; isError := None |}.

(** The return of the catch block. *)
Definition error_result (message : Fault) : CallToolResult :=
  {| content := [TextContent ("Error: " +:+ message)]; isError := Some true |}.

Section Dispatcher.

Variable backend : Backend.

Definition people_filters (args : ToolArguments) : list (string * JSON) :=
  let filters := [] in
  let filters :=
    match as_string (arg args "query") with
    | Some query =>
        Json.set "$or"
          (JArr [JObj [("name", contains query)];
                 JObj [("email_addresses", contains query)];
                 JObj [("description", contains query)];
                 JObj [("job_title", contains query)];
                 path_constraint "people" "company" "companies" "name" query;
                 path_constraint "people" "company" "companies" "description" query;
                 JObj [("primary_location", JObj [("locality", contains query)])]])
          filters
    | None => filters
    end in
  match as_string (arg args "email") with
  | Some email => Json.set "email_addresses" (JStr email) filters
  | None => filters
  end.

Definition companies_filters (args : ToolArguments) : list (string * JSON) :=
  let filters := [] in
  let filters :=
    match as_string (arg args "query") with
    | Some query =>
        Json.set "$or"
          (JArr [JObj [("name", contains query)];
                 JObj [("domains", JObj [("domain", contains query)])];
                 JObj [("description", contains query)];
                 JObj [("primary_location", JObj [("locality", contains query)])];
                 path_constraint "companies" "team" "people" "name" query;
                 path_constraint "companies" "team" "people" "description" query])
          filters
    | None => filters
    end in
  match as_string (arg args "domain") with
  | Some domain => Json.set "domains" (JObj [("domain", JStr domain)]) filters
  | None => filters
  end.

Definition deals_filters (args : ToolArguments) : list (string * JSON) :=
  let filters := [] in
  let filters :=
    match as_string (arg args "name") with
    | Some name => Json.set "name" (contains name) filters
    | None => filters
    end in
  let filters :=
    match as_string (arg args "stage") with
    | Some stage => Json.set "stage" (JStr stage) filters
    | None => filters
    end in
  match as_number (arg args "minValue"), as_number (arg args "maxValue") with
  | None, None => filters
  | minValue, maxValue =>
      let value := [] in
      let value :=
        match minValue with
        | Some n => Json.set "$gte" (JNum n) value
        | None => value
        end in
      let value :=
        match maxValue with
        | Some n => Json.set "$lte" (JNum n) value
        | None => value
        end in
      Json.set "value" (JObj value) filters
  end.

Definition limit_or (default : Z) (args : ToolArguments) : Z :=
  match as_number (arg args "limit") with
  | Some n => n
  | None => default
  end.

Definition string_or_empty (args : ToolArguments) (k : string) : string :=
  match as_string (arg args k) with
  | Some s => s
  | None => ""
  end.

Definition person_data (args : ToolArguments) : PersonData :=
  {| person_name := as_string (arg args "name");
     person_email_addresses := as_array (arg args "email_addresses");
     person_phone_numbers := as_array (arg args "phone_numbers");
     person_job_title := as_string (arg args "job_title");
     person_description := as_string (arg args "description") |}.

Definition company_data (args : ToolArguments) : CompanyData :=
  {| company_name := as_string (arg args "name");
     company_domains := as_array (arg args "domains");
     company_description := as_string (arg args "description") |}.

Definition note_data (args : ToolArguments) : NoteData :=
  {| note_parent_object := string_or_empty args "parent_object";
     note_parent_record_id := string_or_empty args "parent_record_id";
     note_title := string_or_empty args "title";
     note_content := string_or_empty args "content";
     note_format := Some (match as_string (arg args "format") with
                          | Some f => f
                          | None => "plaintext"
                          end) |}.

(** The [switch (name)] inside the try block. *)
Definition tool_switch (store : option Store) (name : string)
    (args : ToolArguments) : M CallToolResult :=
  if String.eqb name "attio_search_people" then
    client <- getAttioClient store ;;
    result <- searchPeople backend client (people_filters args) (limit_or 25 args) ;;
    ret (text_result result)
  else if String.eqb name "attio_search_companies" then
    client <- getAttioClient store ;;
    result <- searchCompanies backend client (companies_filters args) (limit_or 25 args) ;;
    ret (text_result result)
  else if String.eqb name "attio_search_deals" then
    client <- getAttioClient store ;;
    result <- searchDeals backend client (deals_filters args) (limit_or 25 args) ;;
    ret (text_result result)
  else if String.eqb name "attio_search_notes" then
    client <- getAttioClient store ;;
    result <- searchNotes backend client (string_or_empty args "query") (limit_or 50 args) ;;
    ret (text_result result)
  else if String.eqb name "attio_create_note" then
    client <- getAttioClient store ;;
    result <- createNote backend client (note_data args) ;;
    ret (text_result result)
  else if String.eqb name "attio_create_person" then
    client <- getAttioClient store ;;
    result <- createPerson backend client (person_data args) ;;
    ret (text_result result)
  else if String.eqb name "attio_create_company" then
    client <- getAttioClient store ;;
    result <- createCompany backend client (company_data args) ;;
    ret (text_result result)
  else if String.eqb name "attio_update_person" then
    client <- getAttioClient store ;;
    result <- updatePerson backend client (string_or_empty args "record_id")
                (person_data args) ;;
    ret (text_result result)
  else if String.eqb name "attio_update_company" then
    client <- getAttioClient store ;;
    result <- updateCompany backend client (string_or_empty args "record_id")
                (company_data args) ;;
    ret (text_result result)
  else throw ("Unknown tool: " +:+ name).

(** The handler registered for [CallToolRequestSchema]. [safeLog] does
    nothing, so the catch block only builds the error result. *)
Definition CallToolRequestHandler (store : option Store) (name : string)
    (args : ToolArguments) : M CallToolResult :=
  try_catch (tool_switch store name args)
            (fun message => ret (error_result message)).

(** The adapter operation each case of the switch awaits, by tool name;
    [None] for a name the switch sends to its default case. *)
Definition adapter_call (client : AttioClient) (name : string)
    (args : ToolArguments) : option (M JSON) :=
  if String.eqb name "attio_search_people" then
    Some (searchPeople backend client (people_filters args) (limit_or 25 args))
  else if String.eqb name "attio_search_companies" then
    Some (searchCompanies backend client (companies_filters args) (limit_or 25 args))
  else if String.eqb name "attio_search_deals" then
    Some (searchDeals backend client (deals_filters args) (limit_or 25 args))
  else if String.eqb name "attio_search_notes" then
    Some (searchNotes backend client (string_or_empty args "query") (limit_or 50 args))
  else if String.eqb name "attio_create_note" then
    Some (createNote backend client (note_data args))
  else if String.eqb name "attio_create_person" then
    Some (createPerson backend client (person_data args))
  else if String.eqb name "attio_create_company" then
    Some (createCompany backend client (company_data args))
  else if String.eqb name "attio_update_person" then
    Some (updatePerson backend client (string_or_empty args "record_id")
            (person_data args))
  else if String.eqb name "attio_update_company" then
    Some (updateCompany backend client (string_or_empty args "record_id")
            (company_data args))
  else None.

End Dispatcher.

(** ** The transports *)

(** One protocol message, as the SDK parses it from a request body. *)
Inductive ProtocolMessage : Type :=
| ListToolsRequest
| CallToolRequest (name : string) (arguments : ToolArguments)
| OtherMessage.

Inductive ProtocolReply : Type :=
| ListToolsResult (listed : list Tool)
| CallToolResponse (result : CallToolResult)
| OtherReply.

Record SSEServerTransport : Type := { sessionId : string }.

(** What the process did besides answering: the adapters it constructed,
    the [asyncLocalStorage.run] scopes it opened, and the protocol messages
    its server handled together with the store [getStore()] gave then. *)
Inductive Effect : Type :=
| Constructed (client : AttioClient)
| Entered (store : Store)
| Served (store : option Store) (message : ProtocolMessage).

Record Process : Type := {
  ATTIO_API_KEY : option string;
  transports : gmap string SSEServerTransport;
  allocated : nat;
  sent : list HttpRequest;
  journal : list Effect
}.

(** What arrives at the express app: a request on one of its routes, or the
    close event of the response of an earlier [GET /sse]. *)
Inductive Inbound : Type :=
| PostMcp (x_auth_token : option string) (body : ProtocolMessage)
| GetMcp
| DeleteMcp
| GetSse (generated : string)
| SseClose (generated : string)
| PostMessages (sessionId : option string) (x_auth_token : option string)
    (body : ProtocolMessage).

Inductive Outcome : Type :=
| NoResponse
| JsonResponse (status : Z) (body : JSON)
| ProtocolResponse (reply : ProtocolReply)
| EventStream (sessionId : string)
| Cleaned.

Definition method_not_allowed : JSON :=
  JObj [("jsonrpc", JStr "2.0");
        ("error", JObj [("code", JNum (-32000)); ("message", JStr "Method not allowed.")]);
        ("id", JNull)].

Definition transport_not_found : JSON :=
  JObj [("error", JStr "Transport not found")].

(** [process.env.ATTIO_API_KEY || req.headers['x-auth-token']] *)
Definition credential (p : Process) (x_auth_token : option string)
  : option string :=
  Js.or_else (ATTIO_API_KEY p) x_auth_token.

(** [new AttioClient(apiKey)]: the next object of the process. *)
Definition new_AttioClient (p : Process) (apiKey : string) : AttioClient :=
  {| oid := allocated p; apiKey := apiKey; baseUrl := ATTIO_API_URL |}.

Section Transports.

Variable backend : Backend.

(** The server [getAttioMcpServer()] builds: the SDK routes a list-tools
    request and a call-tool request to the handlers registered above and
    answers every other message itself. [store] is what
    [asyncLocalStorage.getStore()] gives while the message is handled. *)
Definition serve (store : option Store) (message : ProtocolMessage)
  : M ProtocolReply :=
  match message with
  | ListToolsRequest =>
      listed <- ListToolsRequestHandler ;;
      ret (ListToolsResult listed)
  | CallToolRequest name arguments =>
      result <- CallToolRequestHandler backend store name arguments ;;
      ret (CallToolResponse result)
  | OtherMessage => ret OtherReply
  end.

(** The part shared by [POST /mcp] and [POST /messages] once a credential
    is at hand: construct the client, then let the transport handle the
    body inside [asyncLocalStorage.run({ attioClient }, ...)]. A rejection
    of the callback is not awaited by the route and leaves no response. *)
Definition run_with_client (p : Process) (apiKey : string)
    (body : ProtocolMessage) : Process * Outcome :=
  let attioClient := new_AttioClient p apiKey in
  let store := {| attioClient := attioClient |} in
  let '(sent', r) := serve (Some store) body (sent p) in
  ({| ATTIO_API_KEY := ATTIO_API_KEY p;
      transports := transports p;
      allocated := S (allocated p);
      sent := sent';
      journal := journal p ++ [Constructed attioClient; Entered store;
                               Served (Some store) body] |},
   match r with
   | inr reply => ProtocolResponse reply
   | inl _ => NoResponse
   end).

(** [POST /mcp]. Building the stateless transport and connecting a fresh
    server to it do not throw, so the route's catch block (HTTP 500) is not
    on any path taken here. *)
Definition post_mcp (p : Process) (x_auth_token : option string)
    (body : ProtocolMessage) : Process * Outcome :=
  match credential p x_auth_token with
  | None => (p, NoResponse)
  | Some apiKey => run_with_client p apiKey body
  end.

Definition get_sse (p : Process) (generated : string) : Process * Outcome :=
  let transport := {| sessionId := generated |} in
  ({| ATTIO_API_KEY := ATTIO_API_KEY p;
      transports := <[sessionId transport := transport]> (transports p);
      allocated := allocated p;
      sent := sent p;
      journal := journal p |},
   EventStream (sessionId transport)).

(** The close listener of a [GET /sse] response. *)
Definition sse_close (p : Process) (generated : string) : Process * Outcome :=
  ({| ATTIO_API_KEY := ATTIO_API_KEY p;
      transports := delete generated (transports p);
      allocated := allocated p;
      sent := sent p;
      journal := journal p |},
   Cleaned).

Definition post_messages (p : Process) (sessionId : option string)
    (x_auth_token : option string) (body : ProtocolMessage)
  : Process * Outcome :=
  match sessionId ≫= (fun id => transports p !! id) with
  | Some transport =>
      match credential p x_auth_token with
      | None => (p, NoResponse)
      | Some apiKey => run_with_client p apiKey body
      end
  | None => (p, JsonResponse 404 transport_not_found)
  end.

Definition handle (p : Process) (e : Inbound) : Process * Outcome :=
  match e with
  | PostMcp x_auth_token body => post_mcp p x_auth_token body
  | GetMcp => (p, JsonResponse 405 method_not_allowed)
  | DeleteMcp => (p, JsonResponse 405 method_not_allowed)
  | GetSse generated => get_sse p generated
  | SseClose generated => sse_close p generated
  | PostMessages sessionId x_auth_token body =>
      post_messages p sessionId x_auth_token body
  end.

(** The process after a sequence of inbound events, with their outcomes. *)
Fixpoint run (p : Process) (events : list Inbound) : Process * list Outcome :=
  match events with
  | [] => (p, [])
  | e :: rest =>
      let '(p', o) := handle p e in
      let '(p'', os) := run p' rest in
      (p'', o :: os)
  end.

End Transports.

(** The process as [app.listen] leaves it: no session, nothing constructed. *)
Definition boot (env_key : option string) : Process :=
  {| ATTIO_API_KEY := env_key;
     transports := ∅;
     allocated := 0;
     sent := [];
     journal := [] |}.

(** ** Overlapping requests *)






Section Overlap.

Variable backend : Backend.






End Overlap.




(** ** Sample backends and requests *)

Module Sample.

(** A backend that cannot be reached. *)
Definition offline : Backend := fun _ _ => FetchRejects "fetch failed".

(** A backend that gives the same response to every request. *)
Definition answering (response : HttpResponse) : Backend :=
  fun _ _ => FetchResolves response.

Definition success (v : JSON) : HttpResponse :=
  {| ok := true; status := 200; statusText := "OK";
     text := inr (Json.stringify v); json := inr v |}.

Definition failure (code : Z) (reason errorText : string) : HttpResponse :=
  {| ok := false; status := code; statusText := reason;
     text := inr errorText; json := inl "Unexpected token" |}.

Definition client : AttioClient :=
  {| oid := 0; apiKey := "secret"; baseUrl := ATTIO_API_URL |}.

Definition auth_headers : list (string * string) :=
  [("Authorization", "Bearer secret"); ("Content-Type", "application/json")].

(** The backend answers every request with HTTP 500. *)
Definition failing : Backend :=
  answering (failure 500 "Internal Server Error" "boom").

(** The backend answers every request with an empty listing. *)
Definition empty_listing : Backend :=
  answering (success (JObj [("data", JArr [])])).

Definition ada : ToolArguments := Some [("name", JStr "Ada Lovelace")].

(** A page of three notes; only the second, in its markdown body and in
    another letter case, holds the word looked for. *)
Definition note1 : JSON :=
  JObj [("id", JStr "n1"); ("title", JStr "Kickoff");
        ("content_plaintext", JStr "agenda"); ("content_markdown", JStr "# agenda")].

Definition note2 : JSON :=
  JObj [("id", JStr "n2"); ("title", JStr "Follow-up");
        ("content_plaintext", JStr "see attachment");
        ("content_markdown", JStr "find the **NeEdLe** here")].

Definition note3 : JSON :=
  JObj [("id", JStr "n3"); ("title", JNum 7); ("content_plaintext", JNull)].

Definition notes_page : JSON :=
  JObj [("data", JArr [note1; note2; note3]); ("pagination", JObj [])].

Definition listing_notes : Backend := answering (success notes_page).

(** A listing whose only entry is [null]. *)
Definition listing_null : Backend :=
  answering (success (JObj [("data", JArr [JNull])])).

(** A session is opened and closed, then a message is posted to it. *)
Definition open_close_post : list Inbound :=
  [GetSse "s1"; SseClose "s1"; PostMessages (Some "s1") (Some "secret") ListToolsRequest].

(** Two messages on one open session, each with a credential of its own. *)
Definition two_posts : list Inbound :=
  [GetSse "s1";
   PostMessages (Some "s1") (Some "alice") ListToolsRequest;
   PostMessages (Some "s1") (Some "bob") ListToolsRequest].

(** Lines joined by line feeds. *)
Definition unlines (l : list string) : string :=
  String.concat (Js.str Js.newline) l.

(** A listing with nesting, empty containers, every kind of scalar and
    text that needs escaping: a quote, a backslash, a tab, a line feed and
    the control characters 1 and 31. *)
Definition rich_listing : JSON :=
  JObj [("data",
         JArr [JObj [("id", JStr "n1");
                     ("title", JStr ("say " +:+ Js.str Js.dquote +:+ "hi"
                                       +:+ Js.str Js.dquote +:+ " "
                                       +:+ Js.str Js.backslash));
                     ("tags", JArr [JStr "a"; JNum (-3); JNum 0]);
                     ("body", JStr ("one" +:+ String "009" (String "010"
                                      (String "001" (String "031" "two")))));
                     ("done", JBool true);
                     ("open", JBool false);
                     ("owner", JNull)];
               JArr [];
               JObj []]);
        ("next", JNum 9007199254740991)].

Definition listing_rich : Backend := answering (success rich_listing).

(** [JSON.stringify(rich_listing, null, 2)], line by line. *)
Definition rich_text : string :=
  unlines
    ["{";
     "  " +:+ Js.str Js.dquote +:+ "data" +:+ Js.str Js.dquote +:+ ": [";
     "    {";
     "      " +:+ Js.str Js.dquote +:+ "id" +:+ Js.str Js.dquote +:+ ": "
       +:+ Js.str Js.dquote +:+ "n1" +:+ Js.str Js.dquote +:+ ",";
     "      " +:+ Js.str Js.dquote +:+ "title" +:+ Js.str Js.dquote +:+ ": "
       +:+ Js.str Js.dquote +:+ "say " +:+ Js.str Js.backslash +:+ Js.str Js.dquote
       +:+ "hi" +:+ Js.str Js.backslash +:+ Js.str Js.dquote +:+ " "
       +:+ Js.str Js.backslash +:+ Js.str Js.backslash +:+ Js.str Js.dquote +:+ ",";
     "      " +:+ Js.str Js.dquote +:+ "tags" +:+ Js.str Js.dquote +:+ ": [";
     "        " +:+ Js.str Js.dquote +:+ "a" +:+ Js.str Js.dquote +:+ ",";
     "        -3,";
     "        0";
     "      ],";
     "      " +:+ Js.str Js.dquote +:+ "body" +:+ Js.str Js.dquote +:+ ": "
       +:+ Js.str Js.dquote +:+ "one" +:+ Js.str Js.backslash +:+ "t"
       +:+ Js.str Js.backslash +:+ "n" +:+ Js.str Js.backslash +:+ "u0001"
       +:+ Js.str Js.backslash +:+ "u001ftwo" +:+ Js.str Js.dquote +:+ ",";
     "      " +:+ Js.str Js.dquote +:+ "done" +:+ Js.str Js.dquote +:+ ": true,";
     "      " +:+ Js.str Js.dquote +:+ "open" +:+ Js.str Js.dquote +:+ ": false,";
     "      " +:+ Js.str Js.dquote +:+ "owner" +:+ Js.str Js.dquote +:+ ": null";
     "    },";
     "    [],";
     "    {}";
     "  ],";
     "  " +:+ Js.str Js.dquote +:+ "next" +:+ Js.str Js.dquote +:+ ": 9007199254740991";
     "}"].



End Sample.

(** Whether the catalog has a tool of that name. *)
Definition registered (tool : string) : bool :=
  existsb (String.eqb tool) (map name tools).

(** Whether a call supplies no argument other than [limit]. *)
Definition only_limit (args : ToolArguments) : bool :=
  match args with
  | Some members => forallb (fun kv => String.eqb (fst kv) "limit") members
  | None => true
  end.

(** The headers [makeRequest] sends for a client. *)
Definition request_headers (client : AttioClient) : list (string * string) :=
  [("Authorization", "Bearer " +:+ apiKey client);
   ("Content-Type", "application/json")].

(** The request [searchNotes] issues. *)
Definition notes_request (this : AttioClient) (limit : Z) : HttpRequest :=
  {| url := baseUrl this +:+ "/notes?limit=" +:+ pretty limit;
     method := "GET";
     headers := request_headers this;
     body := None |}.

(** The string held by a note under [k], if the note is an object that
    has [k] and the value there is a string. *)
Definition string_field (note : JSON) (k : string) : option string :=
  match note with
  | JObj members => as_string (Json.get k members)
  | _ => None
  end.

(** The lowered query occurs in the lowered field. *)
Definition occurs_in (queryLower : string) (field : option string) : bool :=
  match field with
  | Some s => Js.includes (Js.toLowerCase s) queryLower
  | None => false
  end.

(** A note matches when the query occurs in its title, its plaintext
    content or its markdown content. *)
Definition note_matches (queryLower : string) (note : JSON) : bool :=
  occurs_in queryLower (string_field note "title")
  || occurs_in queryLower (string_field note "content_plaintext")
  || occurs_in queryLower (string_field note "content_markdown").

(** The response is an object with an array under [data]. *)
Definition has_data_array (raw : JSON) : bool :=
  match raw with
  | JObj members =>
      match Json.get "data" members with
      | Some (JArr _) => true
      | _ => false
      end
  | _ => false
  end.

Definition not_null (v : JSON) : bool :=
  match v with JNull => false | _ => true end.

(** What one request leaves in the journal when it reaches the server: the
    client constructed for it, the run scope entered with that client, and
    the message served under that scope. *)
Definition scope (client : AttioClient) (body : ProtocolMessage) : list Effect :=
  [Constructed client;
   Entered {| attioClient := client |};
   Served (Some {| attioClient := client |}) body].

Definition scopes_journal (scopes : list (AttioClient * ProtocolMessage))
  : list Effect :=
  flat_map (fun cb => scope (fst cb) (snd cb)) scopes.

(** A message was served inside a run scope. *)
Definition in_scope (e : Effect) : bool :=
  match e with
  | Served None _ => false
  | _ => true
  end.

(** The event registers a session under [id]. *)
Definition opens (id : string) (e : Inbound) : bool :=
  match e with
  | GetSse generated => String.eqb generated id
  | _ => false
  end.

(** [r] is the result of handling [body] at [p] with a client constructed
    for this request from [key]: the journal grows by the scope of that
    client, one more object is allocated, and the answer is the reply of
    the server run under the store that holds that client. *)
Definition handled_in_fresh_scope (backend : Backend) (p : Process)
    (key : string) (body : ProtocolMessage) (r : Process * Outcome) : Prop :=
  journal (fst r) = journal p ++ scope (new_AttioClient p key) body
  /\ allocated (fst r) = S (allocated p)
  /\ transports (fst r) = transports p
  /\ oid (new_AttioClient p key) = allocated p
  /\ apiKey (new_AttioClient p key) = key
  /\ exists reply,
       serve backend (Some {| attioClient := new_AttioClient p key |}) body (sent p)
         = (sent (fst r), inr reply)
       /\ snd r = ProtocolResponse reply.

(** The error result with the bare message, for a call of [tool]: an error result whose
    only block is the text [Unknown tool: <name>]. *)
Definition unknown_tool_result_as_claimed (tool : string) : CallToolResult :=
  {| content := [TextContent ("Unknown tool: " +:+ tool)]; isError := Some true |}.

(** The journal of a process is a sequence of request scopes whose clients
    were allocated one after the other. *)
Definition scoped (p : Process) : Prop :=
  exists scopes,
    journal p = scopes_journal scopes
    /\ map (fun cb => oid (fst cb)) scopes = seq 0 (allocated p).

(** Every byte of the string is white space (so is the empty string). *)
Fixpoint all_space (s : string) : bool :=
  match s with
  | "" => true
  | String c s' => Js.is_space c && all_space s'
  end.

(** The session-map entry of [id] after a sequence of events, from the
    entry [current] before it: an open under [id] sets it, a close of [id]
    clears it, nothing else touches it. *)
Definition track (id : string) (current : option SSEServerTransport)
    (events : list Inbound) : option SSEServerTransport :=
  fold_left
    (fun current e =>
       match e with
       | GetSse generated =>
           if String.eqb generated id then Some {| sessionId := generated |}
           else current
       | SseClose generated =>
           if String.eqb generated id then None else current
       | _ => current
       end)
    events current.

(** A [GET] or [DELETE] on [/mcp]. *)
Definition is_probe (e : Inbound) : bool :=
  match e with
  | GetMcp | DeleteMcp => true
  | _ => false
  end.

(** A post, on either route, whose body is a tool call. *)
Definition is_call (e : Inbound) : bool :=
  match e with
  | PostMcp _ (CallToolRequest _ _) => true
  | PostMessages _ _ (CallToolRequest _ _) => true
  | _ => false
  end.

(** [inputSchema.properties[property].default] of a tool descriptor. *)
Definition schema_default (tool : Tool) (property : string) : option JSON :=
  match inputSchema tool with
  | JObj members =>
      match Json.get "properties" members with
      | Some (JObj properties) =>
          match Json.get property properties with
          | Some (JObj fields) => Json.get "default" fields
          | _ => None
          end
      | _ => None
      end
  | _ => None
  end.

(** The arguments with [k] set to [v], as a client that fills in an
    argument would send them. *)
Definition supply (k : string) (v : JSON) (args : ToolArguments) : ToolArguments :=
  Some (Json.set k v (match args with Some members => members | None => [] end)).

(** The event without its [x-auth-token] header. *)
Definition strip_token (e : Inbound) : Inbound :=
  match e with
  | PostMcp _ body => PostMcp None body
  | PostMessages sessionId _ body => PostMessages sessionId None body
  | _ => e
  end.

(** The message [makeRequest] throws on a fetch that was rejected or on a
    response that is not ok and whose text can be read; [None] for an
    outcome it does not throw on for one of these two reasons. *)
Definition failure_message (outcome : FetchOutcome) : option Fault :=
  match outcome with
  | FetchRejects message => Some message
  | FetchResolves response =>
      if ok response then None
      else match text response with
           | inr errorText =>
               Some ("Attio API error: " +:+ pretty (status response) +:+ " "
                       +:+ statusText response +:+ " - " +:+ errorText)
           | inl _ => None
           end
  end.

(** [Number.isSafeInteger]: an integer every double holds exactly and that
    the runtime prints with all its digits. *)
Definition safe_integer (n : Z) : bool := Z.abs n <=? 9007199254740991.

(** The [limit] argument, when a number, is a safe integer. *)
Definition safe_limit (args : ToolArguments) : bool :=
  match arg args "limit" with
  | Some (JNum n) => safe_integer n
  | _ => true
  end.

(** Every argument that is a number is a safe integer. *)
Definition safe_numbers (args : ToolArguments) : bool :=
  match args with
  | Some members =>
      forallb (fun kv => match snd kv with JNum n => safe_integer n | _ => true end)
              members
  | None => true
  end.

(** Every number of the value, at any depth, is a safe integer. *)
Fixpoint safe_json (v : JSON) : bool :=
  match v with
  | JNum n => safe_integer n
  | JArr elems => forallb safe_json elems
  | JObj members => forallb (fun kv => safe_json (snd kv)) members
  | _ => true
  end.

(** The string holds ASCII characters only. *)
Fixpoint ascii_only (s : string) : bool :=
  match s with
  | "" => true
  | String c s' => (nat_of_ascii c <? 128)%nat && ascii_only s'
  end.




(** * Properties *)

(** ** Strings *)



(** ** The monad *)

Lemma bind_ret {A B} (a : A) (k : A -> M B) (sent : list HttpRequest) :
  bind (ret a) k sent = k a sent.
Proof. reflexivity. Qed.

Lemma bind_inr {A B} (m : M A) (k : A -> M B) sent sent' a :
  m sent = (sent', inr a) -> bind m k sent = k a sent'.
Proof. intros H. unfold bind. rewrite H. reflexivity. Qed.

Lemma bind_inl {A B} (m : M A) (k : A -> M B) sent sent' e :
  m sent = (sent', inl e) -> bind m k sent = (sent', inl e).
Proof. intros H. unfold bind. rewrite H. reflexivity. Qed.

(** ** The dispatcher *)

Section DispatcherFacts.

Variable backend : Backend.

(** Inside a run scope the switch awaits the adapter operation of the tool
    and wraps its result; a name without one goes to the default case. *)
Lemma tool_switch_adapter (st : Store) (tool : string) (args : ToolArguments) :
  tool_switch backend (Some st) tool args =
  match adapter_call backend (attioClient st) tool args with
  | Some op => result <- op ;; ret (text_result result)
  | None => throw ("Unknown tool: " +:+ tool)
  end.
Proof.
  unfold tool_switch, adapter_call.
  repeat match goal with
         | |- context [String.eqb tool ?s] => destruct (String.eqb tool s)
         end; reflexivity.
Qed.

(** The names with a case in the switch are the names of the catalog. *)
Lemma adapter_call_registered (client : AttioClient) (tool : string)
    (args : ToolArguments) :
  adapter_call backend client tool args = None <-> registered tool = false.
Proof.
  unfold adapter_call, registered. cbn [map tools existsb name
    SEARCH_PEOPLE_TOOL SEARCH_COMPANIES_TOOL SEARCH_DEALS_TOOL SEARCH_NOTES_TOOL
    CREATE_NOTE_TOOL CREATE_PERSON_TOOL CREATE_COMPANY_TOOL UPDATE_PERSON_TOOL
    UPDATE_COMPANY_TOOL].
  repeat match goal with
         | |- context [String.eqb tool ?s] => destruct (String.eqb tool s)
         end; cbn [orb]; split; intros H; solve [reflexivity | discriminate H].
Qed.

Lemma registered_In (tool : string) :
  registered tool = true <-> In tool (map name tools).
Proof.
  unfold registered. rewrite existsb_exists. split.
  - intros [x [Hx Heq]]. apply String.eqb_eq in Heq. subst x. exact Hx.
  - intros H. exists tool. split; [exact H | apply String.eqb_refl].
Qed.

(** The handler never throws: whatever the switch does, a result comes back. *)
Lemma handler_total (store : option Store) (name : string)
    (args : ToolArguments) (sent : list HttpRequest) :
  exists sent' r,
    CallToolRequestHandler backend store name args sent = (sent', inr r).
Proof.
  unfold CallToolRequestHandler, try_catch.
  destruct (tool_switch backend store name args sent) as [sent' [e | r]].
  - exists sent', (error_result e). reflexivity.
  - exists sent', r. reflexivity.
Qed.

End DispatcherFacts.

(** ** C7: the catalog *)

(** C7. The list-tools handler is pure and idempotent: from any state it
    returns the same ordered sequence of the nine tool descriptors and
    leaves the state as it was, so a second call after the first gives the
    same sequence again; through the server, with or without a store, the
    reply is that sequence too. *)
Theorem list_tools_pure_idempotent :
  forall (backend : Backend) (store : option Store) (sent : list HttpRequest),
    ListToolsRequestHandler sent = (sent, inr tools)
    /\ (first <- ListToolsRequestHandler ;;
        second <- ListToolsRequestHandler ;;
        ret (first, second)) sent = (sent, inr (tools, tools))
    /\ serve backend store ListToolsRequest sent = (sent, inr (ListToolsResult tools))
    /\ length tools = 9%nat
    /\ map name tools =
         ["attio_search_people"; "attio_search_companies"; "attio_search_deals";
          "attio_search_notes"; "attio_create_note"; "attio_create_person";
          "attio_create_company"; "attio_update_person"; "attio_update_company"]
    /\ NoDup (map name tools).
Proof.
  intros backend store sent. repeat split.
  cbn [map tools name SEARCH_PEOPLE_TOOL SEARCH_COMPANIES_TOOL SEARCH_DEALS_TOOL
       SEARCH_NOTES_TOOL CREATE_NOTE_TOOL CREATE_PERSON_TOOL CREATE_COMPANY_TOOL
       UPDATE_PERSON_TOOL UPDATE_COMPANY_TOOL].
  repeat (apply NoDup_cons; split;
          [rewrite list_elem_of_In; simpl; intuition discriminate |]).
  apply NoDup_nil. exact I.
Qed.

(** ** C2: unknown tool names *)

(** C2, as the code has it. For a tool name that is not in the catalog the
    handler returns, without throwing and without calling the backend, the
    error result whose single text block is [Error: Unknown tool: <name>]:
    the default case throws [Unknown tool: <name>] and the catch block
    prefixes the message of whatever it catches with [Error: ]. *)
Theorem unknown_tool_error_result :
  forall (backend : Backend) (store : option Store) (tool : string)
         (args : ToolArguments) (sent : list HttpRequest),
    registered tool = false ->
    CallToolRequestHandler backend store tool args sent =
      (sent, inr {| content := [TextContent ("Error: Unknown tool: " +:+ tool)];
                    isError := Some true |})
    /\ serve backend store (CallToolRequest tool args) sent =
         (sent, inr (CallToolResponse
                       {| content := [TextContent ("Error: Unknown tool: " +:+ tool)];
                          isError := Some true |})).
Proof.
  intros backend store tool args sent H.
  assert (Hs : tool_switch backend store tool args sent
               = (sent, inl ("Unknown tool: " +:+ tool))).
  { revert H. unfold registered, tool_switch.
    cbn [map tools existsb name SEARCH_PEOPLE_TOOL SEARCH_COMPANIES_TOOL
         SEARCH_DEALS_TOOL SEARCH_NOTES_TOOL CREATE_NOTE_TOOL CREATE_PERSON_TOOL
         CREATE_COMPANY_TOOL UPDATE_PERSON_TOOL UPDATE_COMPANY_TOOL].
    repeat match goal with
           | |- context [String.eqb tool ?s] => destruct (String.eqb tool s)
           end; cbn [orb]; intros H; solve [discriminate H | reflexivity]. }
  assert (Hh : CallToolRequestHandler backend store tool args sent =
               (sent, inr (error_result ("Unknown tool: " +:+ tool)))).
  { unfold CallToolRequestHandler, try_catch. rewrite Hs. reflexivity. }
  split.
  - exact Hh.
  - cbn [serve]. erewrite bind_inr by exact Hh. reflexivity.
Qed.

Lemma unknown_tool_error_result_witness :
  registered "attio_delete_person" = false
  /\ CallToolRequestHandler Sample.offline None "attio_delete_person" None [] =
       ([], inr {| content := [TextContent "Error: Unknown tool: attio_delete_person"];
                   isError := Some true |}).
Proof.
  split; [reflexivity |].
  apply (unknown_tool_error_result Sample.offline None "attio_delete_person" None []).
  reflexivity.
Defined.

(** C2 as stated fails: [attio_delete_person] is not in the catalog, and the
    handler's result for it is not the one with the text
    [Unknown tool: attio_delete_person]. *)
Lemma unknown_tool_text_not_as_claimed :
  registered "attio_delete_person" = false
  /\ snd (CallToolRequestHandler Sample.offline None "attio_delete_person" None [])
       <> inr (unknown_tool_result_as_claimed "attio_delete_person").
Proof.
  split; [reflexivity |]. vm_compute. intros H. discriminate H.
Qed.

(** ** C3 and C6: the result envelope *)

Lemma handler_of_adapter (backend : Backend) (st : Store) (tool : string)
    (args : ToolArguments) (op : M JSON) (sent : list HttpRequest) :
  adapter_call backend (attioClient st) tool args = Some op ->
  CallToolRequestHandler backend (Some st) tool args sent =
  match op sent with
  | (sent', inl message) => (sent', inr (error_result message))
  | (sent', inr result) => (sent', inr (text_result result))
  end.
Proof.
  intros H. unfold CallToolRequestHandler, try_catch.
  rewrite tool_switch_adapter, H. unfold bind.
  destruct (op sent) as [sent' [e | result]]; reflexivity.
Qed.

(** C3. When the adapter operation of a tool throws, with whatever message,
    the handler returns normally the error result whose single text block
    is [Error: <message>]; a [POST /mcp] or a [POST /messages] on an open
    session that carries the call is answered through the protocol with
    that result, not by an HTTP error of the route. *)
Theorem adapter_fault_contained :
  forall (backend : Backend) (p : Process) (x_auth_token : option string)
         (key tool : string) (args : ToolArguments) (op : M JSON)
         (sent' : list HttpRequest) (message : Fault),
    credential p x_auth_token = Some key ->
    adapter_call backend (new_AttioClient p key) tool args = Some op ->
    op (sent p) = (sent', inl message) ->
    CallToolRequestHandler backend (Some {| attioClient := new_AttioClient p key |})
        tool args (sent p) =
      (sent', inr {| content := [TextContent ("Error: " +:+ message)];
                     isError := Some true |})
    /\ snd (handle backend p (PostMcp x_auth_token (CallToolRequest tool args))) =
         ProtocolResponse (CallToolResponse
           {| content := [TextContent ("Error: " +:+ message)]; isError := Some true |})
    /\ (forall id transport,
          transports p !! id = Some transport ->
          snd (handle backend p
                 (PostMessages (Some id) x_auth_token (CallToolRequest tool args))) =
            ProtocolResponse (CallToolResponse
              {| content := [TextContent ("Error: " +:+ message)];
                 isError := Some true |})).
Proof.
  intros backend p token key tool args op sent' message Hk Hop Hf.
  assert (Hh : CallToolRequestHandler backend
                 (Some {| attioClient := new_AttioClient p key |}) tool args (sent p)
               = (sent', inr (error_result message))).
  { rewrite (handler_of_adapter backend {| attioClient := new_AttioClient p key |}
               tool args op (sent p) Hop), Hf.
    reflexivity. }
  assert (Hr : snd (run_with_client backend p key (CallToolRequest tool args)) =
               ProtocolResponse (CallToolResponse (error_result message))).
  { unfold run_with_client. cbn [serve].
    erewrite bind_inr by exact Hh. reflexivity. }
  split; [exact Hh | split].
  - cbn [handle]. unfold post_mcp. rewrite Hk. exact Hr.
  - intros id transport Hid. cbn [handle]. unfold post_messages.
    cbn [mbind option_bind]. rewrite Hid, Hk. exact Hr.
Qed.

Lemma adapter_fault_contained_witness :
  snd (handle Sample.failing (boot None)
         (PostMcp (Some "secret") (CallToolRequest "attio_create_person" Sample.ada))) =
  ProtocolResponse (CallToolResponse
    {| content :=
         [TextContent "Error: Attio API error: 500 Internal Server Error - boom"];
       isError := Some true |}).
Proof.
  refine (proj1 (proj2 (adapter_fault_contained Sample.failing (boot None)
            (Some "secret") "secret" "attio_create_person" Sample.ada
            (createPerson Sample.failing (new_AttioClient (boot None) "secret")
               (person_data Sample.ada))
            _ "Attio API error: 500 Internal Server Error - boom" _ _ _)));
    reflexivity.
Defined.

(** C6. When the adapter operation of a tool returns [result], the handler
    returns the result whose content is exactly one text block, holding
    [JSON.stringify(result, null, 2)], and whose [isError] is not set, which
    the protocol reads as false. That text is the pretty-printed JSON of
    the value: a scalar as its JSON literal, a string between double quotes
    with the JSON escapes, an empty array or object as [[]] or [{}], and
    every other array or object with each element or [key: value] member on
    a line of its own, indented two spaces more than the line that opens
    it, separated by commas, the closing bracket on a line of its own at the
    indentation of the opening line. Stated for results whose numbers are
    safe integers, which this model prints as the runtime does. *)
Theorem success_result_is_pretty_json :
  forall (backend : Backend) (st : Store) (tool : string) (args : ToolArguments)
         (op : M JSON) (sent sent' : list HttpRequest) (result : JSON),
    adapter_call backend (attioClient st) tool args = Some op ->
    op sent = (sent', inr result) ->
    safe_json result = true ->
    exists r,
      CallToolRequestHandler backend (Some st) tool args sent = (sent', inr r)
      /\ content r = [TextContent (Json.stringify_pretty result)]
      /\ isError r = None
      /\ is_error r = false
      /\ Json.stringify_pretty result = Json.serialize "  " "" result
      /\ (forall indent v,
            Json.serialize "  " indent v =
            match v with
            | JNull => "null"
            | JBool true => "true"
            | JBool false => "false"
            | JNum n => pretty n
            | JStr s => String Js.dquote (Json.quote_body s +:+ Js.str Js.dquote)
            | JArr [] => "[]"
            | JArr elems =>
                "[" +:+ String Js.newline (indent +:+ "  ")
                    +:+ String.concat ("," +:+ String Js.newline (indent +:+ "  "))
                          (map (Json.serialize "  " (indent +:+ "  ")) elems)
                    +:+ String Js.newline indent +:+ "]"
            | JObj [] => "{}"
            | JObj members =>
                "{" +:+ String Js.newline (indent +:+ "  ")
                    +:+ String.concat ("," +:+ String Js.newline (indent +:+ "  "))
                          (map (fun kv =>
                                  String Js.dquote
                                    (Json.quote_body (fst kv) +:+ Js.str Js.dquote)
                                  +:+ ": "
                                  +:+ Json.serialize "  " (indent +:+ "  ") (snd kv))
                               members)
                    +:+ String Js.newline indent +:+ "}"
            end)
      /\ (forall c s,
            Json.quote_body (String c s) =
            (if Ascii.eqb c Js.dquote then String Js.backslash (Js.str Js.dquote)
             else if Ascii.eqb c Js.backslash then String Js.backslash (Js.str Js.backslash)
             else if Ascii.eqb c "008" then String Js.backslash "b"
             else if Ascii.eqb c "009" then String Js.backslash "t"
             else if Ascii.eqb c "010" then String Js.backslash "n"
             else if Ascii.eqb c "012" then String Js.backslash "f"
             else if Ascii.eqb c "013" then String Js.backslash "r"
             else if (nat_of_ascii c <? 16)%nat then
               String Js.backslash
                 ("u000" +:+ Js.str (nth (nat_of_ascii c)
                                       (list_ascii_of_string "0123456789abcdef") c))
             else if (nat_of_ascii c <? 32)%nat then
               String Js.backslash
                 ("u001" +:+ Js.str (nth (nat_of_ascii c - 16)
                                       (list_ascii_of_string "0123456789abcdef") c))
             else Js.str c)
            +:+ Json.quote_body s)
      /\ Json.quote_body "" = "".
Proof.
  intros backend st tool args op sent sent' result Hop Hr _.
  exists (text_result result).
  rewrite (handler_of_adapter backend st tool args op sent Hop), Hr.
  split; [reflexivity | split; [reflexivity | split; [reflexivity |
    split; [reflexivity | split; [reflexivity | split; [| split]]]]]].
  - intros indent v.
    destruct v as [| [] | n | s | [|x elems] | [|kv members]]; reflexivity.
  - intros c s. cbn [Json.quote_body]. f_equal.
    destruct c as [[] [] [] [] [] [] [] []]; reflexivity.
  - reflexivity.
Qed.

Lemma success_result_is_pretty_json_witness :
  safe_json Sample.rich_listing = true
  /\ exists r,
       CallToolRequestHandler Sample.listing_rich
         (Some {| attioClient := Sample.client |}) "attio_search_people" None [] =
         ([{| url := "https://api.attio.com/v2/objects/people/records/query";
              method := "POST"; headers := Sample.auth_headers;
              body := Some ("{" +:+ Schema.q +:+ "limit" +:+ Schema.q +:+ ":25}") |}],
          inr r)
       /\ content r = [TextContent Sample.rich_text]
       /\ isError r = None
       /\ is_error r = false.
Proof.
  split; [reflexivity |].
  destruct (success_result_is_pretty_json Sample.listing_rich
              {| attioClient := Sample.client |} "attio_search_people" None
              (searchPeople Sample.listing_rich Sample.client (people_filters None)
                 (limit_or 25 None))
              [] _ Sample.rich_listing eq_refl eq_refl eq_refl)
    as [r [Hh [Hc [He [Hf _]]]]].
  exists r. split; [exact Hh | split; [| split; assumption]].
  rewrite Hc. reflexivity.
Defined.

(** ** C5: searches without filters *)

Section SearchFacts.

Variable backend : Backend.

(** [makeRequest] issues exactly one request, whatever comes back. *)
Lemma makeRequest_sent (this : AttioClient) (endpoint : string)
    (options : RequestInit) (sent : list HttpRequest) :
  fst (makeRequest backend this endpoint options sent) =
  sent ++ [{| url := baseUrl this +:+ endpoint; method := init_method options;
              headers := request_headers this; body := init_body options |}].
Proof.
  unfold makeRequest, bind, fetch, request_headers.
  destruct (backend sent _) as [message | response]; [reflexivity |].
  destruct (ok response); cbn [negb]; [| unfold lift, throw].
  - reflexivity.
  - destruct (text response); reflexivity.
Qed.

(** The requests a tool call leaves behind are those of its adapter
    operation, whether it returns or throws. *)
Lemma handler_sent (st : Store) (tool : string) (args : ToolArguments)
    (op : M JSON) (sent : list HttpRequest) :
  adapter_call backend (attioClient st) tool args = Some op ->
  fst (CallToolRequestHandler backend (Some st) tool args sent) = fst (op sent).
Proof.
  intros H. rewrite (handler_of_adapter backend st tool args op sent H).
  destruct (op sent) as [sent' [e | result]]; reflexivity.
Qed.

Lemma only_limit_arg (args : ToolArguments) (k : string) :
  only_limit args = true -> k <> "limit" -> arg args k = None.
Proof.
  destruct args as [members|]; [| reflexivity].
  cbn [only_limit arg]. intros H Hk.
  induction members as [|[k' v] rest IH]; [reflexivity |].
  cbn [forallb fst] in H. apply andb_true_iff in H as [Hk' Hrest].
  apply String.eqb_eq in Hk'. subst k'. cbn [Json.get].
  destruct (String.eqb_spec k "limit"); [contradiction | exact (IH Hrest)].
Qed.

Lemma only_limit_people (args : ToolArguments) :
  only_limit args = true -> people_filters args = [].
Proof.
  intros H. unfold people_filters.
  rewrite !(only_limit_arg args _ H) by discriminate. reflexivity.
Qed.

Lemma only_limit_companies (args : ToolArguments) :
  only_limit args = true -> companies_filters args = [].
Proof.
  intros H. unfold companies_filters.
  rewrite !(only_limit_arg args _ H) by discriminate. reflexivity.
Qed.

Lemma only_limit_deals (args : ToolArguments) :
  only_limit args = true -> deals_filters args = [].
Proof.
  intros H. unfold deals_filters.
  rewrite !(only_limit_arg args _ H) by discriminate. reflexivity.
Qed.

Lemma only_limit_query (args : ToolArguments) :
  only_limit args = true -> string_or_empty args "query" = "".
Proof.
  intros H. unfold string_or_empty.
  rewrite (only_limit_arg args _ H) by discriminate. reflexivity.
Qed.

End SearchFacts.

(** C5. For a search-tool call that supplies no argument other than
    [limit], the dispatcher hands the adapter an empty filter object (an
    empty query, for the note search) and the limit as it was given, of any
    size, or 25 (records) or 50 (notes) when [limit] is absent or not a
    number: nothing compares the limit with a bound. The call then issues
    exactly one backend request: for the people, companies and deals
    searches the POST to the records query of that object whose body is the
    JSON text of [{limit}] alone, with no [filter] member; for the note
    search the GET of [/notes?limit=<limit>], with no body. The text of the
    limit is fixed for the safe integers, the numbers this model prints as
    the runtime does. *)
Theorem unfiltered_search_carries_only_limit :
  forall (backend : Backend) (st : Store) (args : ToolArguments)
         (sent : list HttpRequest),
    only_limit args = true ->
    adapter_call backend (attioClient st) "attio_search_people" args =
      Some (searchPeople backend (attioClient st) []
              (match arg args "limit" with Some (JNum n) => n | _ => 25 end))
    /\ adapter_call backend (attioClient st) "attio_search_companies" args =
      Some (searchCompanies backend (attioClient st) []
              (match arg args "limit" with Some (JNum n) => n | _ => 25 end))
    /\ adapter_call backend (attioClient st) "attio_search_deals" args =
      Some (searchDeals backend (attioClient st) []
              (match arg args "limit" with Some (JNum n) => n | _ => 25 end))
    /\ adapter_call backend (attioClient st) "attio_search_notes" args =
      Some (searchNotes backend (attioClient st) ""
              (match arg args "limit" with Some (JNum n) => n | _ => 50 end))
    /\ (safe_limit args = true ->
        (forall tool object,
            In (tool, object) [("attio_search_people", "people");
                               ("attio_search_companies", "companies");
                               ("attio_search_deals", "deals")] ->
            fst (CallToolRequestHandler backend (Some st) tool args sent) =
            sent ++ [{| url := baseUrl (attioClient st) +:+ "/objects/" +:+ object
                                 +:+ "/records/query";
                        method := "POST";
                        headers := request_headers (attioClient st);
                        body := Some ("{" +:+ Schema.q +:+ "limit" +:+ Schema.q +:+ ":"
                                        +:+ pretty (match arg args "limit" with
                                                    | Some (JNum n) => n
                                                    | _ => 25
                                                    end) +:+ "}") |}])
        /\ fst (CallToolRequestHandler backend (Some st) "attio_search_notes" args sent) =
           sent ++ [{| url := baseUrl (attioClient st) +:+ "/notes?limit="
                                +:+ pretty (match arg args "limit" with
                                            | Some (JNum n) => n
                                            | _ => 50
                                            end);
                       method := "GET";
                       headers := request_headers (attioClient st);
                       body := None |}]).
Proof.
  intros backend st args sent H.
  assert (Hl : forall d, limit_or d args =
                         match arg args "limit" with Some (JNum n) => n | _ => d end).
  { intros d. unfold limit_or, as_number.
    destruct (arg args "limit") as [[]|]; reflexivity. }
  assert (Hp : adapter_call backend (attioClient st) "attio_search_people" args =
               Some (searchPeople backend (attioClient st) []
                       (match arg args "limit" with Some (JNum n) => n | _ => 25 end))).
  { unfold adapter_call. cbn [String.eqb Ascii.eqb Bool.eqb].
    rewrite (only_limit_people args H), Hl. reflexivity. }
  assert (Hc : adapter_call backend (attioClient st) "attio_search_companies" args =
               Some (searchCompanies backend (attioClient st) []
                       (match arg args "limit" with Some (JNum n) => n | _ => 25 end))).
  { unfold adapter_call. cbn [String.eqb Ascii.eqb Bool.eqb].
    rewrite (only_limit_companies args H), Hl. reflexivity. }
  assert (Hd : adapter_call backend (attioClient st) "attio_search_deals" args =
               Some (searchDeals backend (attioClient st) []
                       (match arg args "limit" with Some (JNum n) => n | _ => 25 end))).
  { unfold adapter_call. cbn [String.eqb Ascii.eqb Bool.eqb].
    rewrite (only_limit_deals args H), Hl. reflexivity. }
  assert (Hn : adapter_call backend (attioClient st) "attio_search_notes" args =
               Some (searchNotes backend (attioClient st) ""
                       (match arg args "limit" with Some (JNum n) => n | _ => 50 end))).
  { unfold adapter_call. cbn [String.eqb Ascii.eqb Bool.eqb].
    rewrite (only_limit_query args H), Hl. reflexivity. }
  split; [exact Hp | split; [exact Hc | split; [exact Hd | split; [exact Hn |]]]].
  intros _. split.
  - intros tool object Hin. cbn [In] in Hin.
    destruct Hin as [Heq | [Heq | [Heq | []]]]; injection Heq as <- <-.
    + rewrite (handler_sent backend st "attio_search_people" args _ sent Hp).
      unfold searchPeople. cbn [no_keys]. rewrite makeRequest_sent. reflexivity.
    + rewrite (handler_sent backend st "attio_search_companies" args _ sent Hc).
      unfold searchCompanies. cbn [no_keys]. rewrite makeRequest_sent. reflexivity.
    + rewrite (handler_sent backend st "attio_search_deals" args _ sent Hd).
      unfold searchDeals. cbn [no_keys]. rewrite makeRequest_sent. reflexivity.
  - rewrite (handler_sent backend st "attio_search_notes" args _ sent Hn).
    unfold searchNotes.
    match goal with
    | |- fst (bind ?m ?k sent) = _ =>
        assert (Hb : fst (bind m k sent) = fst (m sent))
    end.
    { unfold bind.
      destruct (makeRequest backend (attioClient st) _ _ sent) as [sent' [e | raw]];
        [reflexivity |].
      cbn [blank Js.truthy negb orb]. reflexivity. }
    rewrite Hb, makeRequest_sent. reflexivity.
Qed.

Lemma unfiltered_search_carries_only_limit_witness :
  only_limit (Some [("limit", JNum 1000)]) = true
  /\ safe_limit (Some [("limit", JNum 1000)]) = true
  /\ fst (CallToolRequestHandler Sample.offline (Some {| attioClient := Sample.client |})
            "attio_search_deals" (Some [("limit", JNum 1000)]) []) =
     [{| url := "https://api.attio.com/v2/objects/deals/records/query";
         method := "POST"; headers := Sample.auth_headers;
         body := Some ("{" +:+ Schema.q +:+ "limit" +:+ Schema.q +:+ ":1000}") |}].
Proof.
  split; [reflexivity | split; [reflexivity |]].
  apply (proj1 (proj2 (proj2 (proj2 (proj2
           (unfiltered_search_carries_only_limit Sample.offline
              {| attioClient := Sample.client |} (Some [("limit", JNum 1000)]) []
              eq_refl)))) eq_refl) "attio_search_deals" "deals").
  simpl. tauto.
Defined.

(** ** C4 and C10: the note search *)

Section NoteSearchFacts.

Variable backend : Backend.

Lemma makeRequest_json (this : AttioClient) (endpoint : string)
    (options : RequestInit) (sent : list HttpRequest) (response : HttpResponse)
    (raw : JSON) :
  backend sent {| url := baseUrl this +:+ endpoint; method := init_method options;
                  headers := request_headers this; body := init_body options |}
    = FetchResolves response ->
  ok response = true ->
  json response = inr raw ->
  makeRequest backend this endpoint options sent =
  (sent ++ [{| url := baseUrl this +:+ endpoint; method := init_method options;
               headers := request_headers this; body := init_body options |}],
   inr raw).
Proof.
  intros Hb Hok Hjson. unfold makeRequest, bind, fetch.
  fold (request_headers this). rewrite Hb, Hok. cbn [negb]. unfold lift.
  rewrite Hjson. reflexivity.
Qed.

(** On anything but [null] the filter callback returns, and says whether
    the note matches. *)
Lemma note_filter_matches (queryLower : string) (note : JSON) :
  not_null note = true ->
  note_filter queryLower note = inr (note_matches queryLower note).
Proof.
  intros H. destruct note; try discriminate H; try reflexivity.
  unfold note_filter, note_matches, string_field, get_property, field_match,
    occurs_in, as_string.
  destruct (Json.get "title" members) as [[]|];
    destruct (Json.get "content_plaintext" members) as [[]|];
    destruct (Json.get "content_markdown" members) as [[]|]; reflexivity.
Qed.

Lemma array_filter_matches (queryLower : string) (notes : list JSON) :
  forallb not_null notes = true ->
  array_filter (note_filter queryLower) notes =
  inr (List.filter (note_matches queryLower) notes).
Proof.
  induction notes as [|note rest IH]; [reflexivity |].
  cbn [forallb]. intros H. apply andb_true_iff in H as [Hn Hrest].
  cbn [array_filter List.filter].
  rewrite (note_filter_matches queryLower note Hn), (IH Hrest).
  reflexivity.
Qed.


Lemma guard_notes_listing (members : list (string * JSON)) (notes : list JSON) :
  Json.get "data" members = Some (JArr notes) ->
  guard_notes (JObj members) = members /\ notes_data members = notes.
Proof.
  intros H. unfold guard_notes, notes_data. rewrite H. split; reflexivity.
Qed.

Lemma guard_notes_fallback (raw : JSON) :
  has_data_array raw = false -> guard_notes raw = [("data", JArr [])].
Proof.
  unfold has_data_array, guard_notes. destruct raw; try reflexivity.
  destruct (Json.get "data" members) as [[]|]; try reflexivity. discriminate.
Qed.

End NoteSearchFacts.

(** C10, as the code has it. A response that is not an object with an array
    under [data] is treated as [{data: []}] and [searchNotes] returns that
    listing, for every query. The filter callback returns on every note
    other than [null], whatever its shape (an object, an array, a string, a
    number or a boolean), and a note none of whose three fields is a string
    does not match; over a page without [null] entries the filtering returns
    the matching notes. (On a [null] entry the callback throws.) *)
Theorem searchNotes_tolerates_shapes :
  forall (backend : Backend) (this : AttioClient) (query : string) (limit : Z)
         (sent : list HttpRequest) (response : HttpResponse) (raw : JSON),
    backend sent (notes_request this limit) = FetchResolves response ->
    ok response = true ->
    json response = inr raw ->
    (has_data_array raw = false ->
       searchNotes backend this query limit sent =
       (sent ++ [notes_request this limit], inr (JObj [("data", JArr [])])))
    /\ (forall note,
          not_null note = true ->
          note_filter (Js.toLowerCase query) note =
            inr (note_matches (Js.toLowerCase query) note)
          /\ ((forall k, In k ["title"; "content_plaintext"; "content_markdown"] ->
                         string_field note k = None) ->
              note_filter (Js.toLowerCase query) note = inr false))
    /\ (forall notes,
          forallb not_null notes = true ->
          array_filter (note_filter (Js.toLowerCase query)) notes =
            inr (List.filter (note_matches (Js.toLowerCase query)) notes)).
Proof.
  intros backend this query limit sent response raw Hb Hok Hjson.
  assert (Hreq : makeRequest backend this ("/notes?limit=" +:+ pretty limit)
                   {| init_method := "GET"; init_body := None |} sent =
                 (sent ++ [notes_request this limit], inr raw)).
  { apply (makeRequest_json backend this ("/notes?limit=" +:+ pretty limit)
             {| init_method := "GET"; init_body := None |} sent response);
      assumption. }
  split; [| split].
  - intros Hshape. unfold searchNotes. erewrite bind_inr by exact Hreq.
    rewrite (guard_notes_fallback raw Hshape).
    destruct (blank query); reflexivity.
  - intros note Hnote. split.
    + apply note_filter_matches. exact Hnote.
    + intros Hnone. rewrite (note_filter_matches _ note Hnote).
      unfold note_matches. rewrite !Hnone by (simpl; tauto). reflexivity.
  - intros notes Hnotes. apply array_filter_matches. exact Hnotes.
Qed.

Lemma searchNotes_tolerates_shapes_witness :
  searchNotes (Sample.answering (Sample.success (JArr [JStr "unexpected"])))
    Sample.client "needle" 50 [] =
  ([{| url := "https://api.attio.com/v2/notes?limit=50"; method := "GET";
       headers := Sample.auth_headers; body := None |}],
   inr (JObj [("data", JArr [])])).
Proof.
  apply (proj1 (searchNotes_tolerates_shapes
                  (Sample.answering (Sample.success (JArr [JStr "unexpected"])))
                  Sample.client "needle" 50 []
                  (Sample.success (JArr [JStr "unexpected"]))
                  (JArr [JStr "unexpected"]) eq_refl eq_refl eq_refl)).
  reflexivity.
Defined.

(** C10 as stated fails on a [null] entry: the filter callback throws there,
    so does [searchNotes] on a page that holds one, and the tool call ends
    as an error result. *)
Lemma null_note_makes_filter_throw :
  ~ (forall queryLower note, exists keep, note_filter queryLower note = inr keep)
  /\ note_filter "needle" JNull = inl "Cannot read properties of null (reading 'title')"
  /\ snd (searchNotes Sample.listing_null Sample.client "needle" 50 []) =
     inl "Cannot read properties of null (reading 'title')"
  /\ snd (CallToolRequestHandler Sample.listing_null
            (Some {| attioClient := Sample.client |}) "attio_search_notes"
            (Some [("query", JStr "needle")]) []) =
     inr {| content :=
              [TextContent "Error: Cannot read properties of null (reading 'title')"];
            isError := Some true |}.
Proof.
  split; [| repeat split].
  intros H. destruct (H "needle" JNull) as [keep Hkeep]. discriminate Hkeep.
Qed.

(** ** C8, C9 and C1: the transports *)

Section TransportFacts.

Variable backend : Backend.

(** The server answers every message; it never rejects. *)
Lemma serve_total (store : option Store) (message : ProtocolMessage)
    (sent : list HttpRequest) :
  exists sent' reply, serve backend store message sent = (sent', inr reply).
Proof.
  destruct message as [| tool args |]; cbn [serve].
  - exists sent, (ListToolsResult tools). reflexivity.
  - destruct (handler_total backend store tool args sent) as [sent' [r Hr]].
    exists sent', (CallToolResponse r). erewrite bind_inr by exact Hr. reflexivity.
  - exists sent, OtherReply. reflexivity.
Qed.

Lemma run_with_client_fresh (p : Process) (key : string) (body : ProtocolMessage) :
  handled_in_fresh_scope backend p key body (run_with_client backend p key body).
Proof.
  unfold handled_in_fresh_scope, run_with_client.
  destruct (serve_total (Some {| attioClient := new_AttioClient p key |}) body (sent p))
    as [sent' [reply Hs]].
  rewrite Hs. cbn [fst snd journal allocated transports sent].
  repeat split. exists reply. split; reflexivity.
Qed.

Lemma scoped_run_with_client (p : Process) (key : string) (body : ProtocolMessage) :
  scoped p -> scoped (fst (run_with_client backend p key body)).
Proof.
  intros [scopes [Hj Ho]].
  destruct (run_with_client_fresh p key body) as [Hj' [Ha' _]].
  exists (scopes ++ [(new_AttioClient p key, body)]). split.
  - rewrite Hj', Hj. unfold scopes_journal. rewrite flat_map_app.
    cbn [flat_map fst snd]. rewrite app_nil_r. reflexivity.
  - rewrite Ha', map_app, Ho, seq_S. reflexivity.
Qed.

Lemma scoped_handle (p : Process) (e : Inbound) :
  scoped p -> scoped (fst (handle backend p e)).
Proof.
  intros H. destruct e as [token body | | | generated | generated | id token body];
    cbn [handle]; try exact H.
  - unfold post_mcp. destruct (credential p token); [| exact H].
    apply scoped_run_with_client. exact H.
  - unfold post_messages.
    destruct (id ≫= (fun id => transports p !! id)); [| exact H].
    destruct (credential p token); [| exact H].
    apply scoped_run_with_client. exact H.
Qed.

Lemma run_cons (p : Process) (e : Inbound) (rest : list Inbound) :
  fst (run backend p (e :: rest)) = fst (run backend (fst (handle backend p e)) rest).
Proof.
  cbn [run]. destruct (handle backend p e) as [p' o]. cbn [fst].
  destruct (run backend p' rest) as [p'' os]. reflexivity.
Qed.

Lemma scoped_run (events : list Inbound) (p : Process) :
  scoped p -> scoped (fst (run backend p events)).
Proof.
  revert p. induction events as [|e rest IH]; intros p H; [exact H |].
  rewrite run_cons. apply IH, scoped_handle, H.
Qed.

Lemma in_scope_journal (scopes : list (AttioClient * ProtocolMessage)) :
  forallb in_scope (scopes_journal scopes) = true.
Proof.
  induction scopes as [|[client body] rest IH]; [reflexivity |].
  unfold scopes_journal. cbn [flat_map fst snd scope app forallb in_scope].
  exact IH.
Qed.

(** A closed session stays unknown until a connection is opened under its
    id again. *)
Lemma closed_stays_closed (id : string) (events : list Inbound) (p : Process) :
  transports p !! id = None ->
  forallb (fun e => negb (opens id e)) events = true ->
  transports (fst (run backend p events)) !! id = None.
Proof.
  revert p. induction events as [|e rest IH]; intros p Hp He; [exact Hp |].
  cbn [forallb] in He. apply andb_true_iff in He as [He Hrest].
  rewrite run_cons. apply IH; [| exact Hrest].
  destruct e as [token body | | | generated | generated | sid token body];
    cbn [handle]; try exact Hp.
  - unfold post_mcp. destruct (credential p token) as [key|]; [| exact Hp].
    destruct (run_with_client_fresh p key body) as [_ [_ [Ht _]]].
    rewrite Ht. exact Hp.
  - cbn [get_sse fst transports sessionId]. cbn [opens] in He.
    apply negb_true_iff, String.eqb_neq in He.
    rewrite lookup_insert_ne by exact He. exact Hp.
  - cbn [sse_close fst transports].
    destruct (decide (generated = id)) as [-> | Hne].
    + apply lookup_delete_eq.
    + rewrite lookup_delete_ne by exact Hne. exact Hp.
  - unfold post_messages.
    destruct (sid ≫= (fun id => transports p !! id)); [| exact Hp].
    destruct (credential p token) as [key|]; [| exact Hp].
    destruct (run_with_client_fresh p key body) as [_ [_ [Ht _]]].
    rewrite Ht. exact Hp.
Qed.

End TransportFacts.

(** C8. A [POST /messages] whose [sessionId] names no registered session,
    or carries none, is answered 404 with [{error: "Transport not found"}]
    and leaves the process as it was: no client is constructed and no run
    scope entered. Closing a connection removes its session, so the id of a
    closed session is answered that way from then on, until a connection is
    opened under the same id again; a second close changes nothing. *)
Theorem unknown_session_not_found :
  forall (backend : Backend) (p : Process) (id : string)
         (x_auth_token : option string) (body : ProtocolMessage),
    (transports p !! id = None ->
       handle backend p (PostMessages (Some id) x_auth_token body) =
       (p, JsonResponse 404 (JObj [("error", JStr "Transport not found")])))
    /\ handle backend p (PostMessages None x_auth_token body) =
       (p, JsonResponse 404 (JObj [("error", JStr "Transport not found")]))
    /\ transports (fst (handle backend p (GetSse id))) !! id
       = Some {| sessionId := id |}
    /\ (forall events,
          forallb (fun e => negb (opens id e)) events = true ->
          handle backend (fst (run backend p (SseClose id :: events)))
                 (PostMessages (Some id) x_auth_token body) =
          (fst (run backend p (SseClose id :: events)),
           JsonResponse 404 (JObj [("error", JStr "Transport not found")])))
    /\ handle backend (fst (handle backend p (SseClose id))) (SseClose id) =
       (fst (handle backend p (SseClose id)), Cleaned).
Proof.
  intros backend p id token body.
  assert (H404 : forall q, transports q !! id = None ->
            handle backend q (PostMessages (Some id) token body) =
            (q, JsonResponse 404 (JObj [("error", JStr "Transport not found")]))).
  { intros q Hq. cbn [handle]. unfold post_messages. cbn [mbind option_bind].
    rewrite Hq. reflexivity. }
  split; [exact (H404 p) | split; [reflexivity | split; [| split]]].
  - cbn [handle get_sse fst transports sessionId]. apply lookup_insert_eq.
  - intros events Hev. apply H404. rewrite run_cons.
    apply closed_stays_closed; [| exact Hev].
    cbn [handle sse_close fst transports]. apply lookup_delete_eq.
  - unfold handle, sse_close. cbn [fst transports ATTIO_API_KEY allocated sent journal].
    rewrite delete_delete_eq. reflexivity.
Qed.

Lemma unknown_session_not_found_witness :
  transports (boot None) !! "s1" = None
  /\ handle Sample.offline (boot None)
       (PostMessages (Some "s1") (Some "secret") ListToolsRequest) =
     (boot None, JsonResponse 404 (JObj [("error", JStr "Transport not found")])).
Proof.
  split; [reflexivity |].
  apply (proj1 (unknown_session_not_found Sample.offline (boot None) "s1"
                  (Some "secret") ListToolsRequest)).
  reflexivity.
Defined.

(** No credential is resolved exactly when the environment default and the
    header are each absent or empty. *)
Lemma credential_missing (p : Process) (x_auth_token : option string) :
  credential p x_auth_token = None <->
  (ATTIO_API_KEY p = None \/ ATTIO_API_KEY p = Some "")
  /\ (x_auth_token = None \/ x_auth_token = Some "").
Proof.
  unfold credential, Js.or_else.
  destruct (ATTIO_API_KEY p) as [[|c k]|], x_auth_token as [[|d t]|]; cbn [Js.truthy];
    split; intros H; try discriminate H; try reflexivity;
    try (split; auto; fail);
    try (destruct H as [[H | H] [H' | H']]; discriminate).
Qed.

(** C9. When neither the environment nor the [x-auth-token] header gives a
    credential (absent, or empty), a [POST /mcp] and a [POST /messages] on a
    registered session return without writing a response and leave the
    process as it was: no client is constructed and no run scope entered.
    Hence whatever arrives, every message the server handles is handled
    inside a run scope, where [getAttioClient] does not throw. *)
Theorem missing_credential_short_circuits :
  forall (backend : Backend) (p : Process) (x_auth_token : option string)
         (body : ProtocolMessage),
    credential p x_auth_token = None ->
    handle backend p (PostMcp x_auth_token body) = (p, NoResponse)
    /\ (forall id transport,
          transports p !! id = Some transport ->
          handle backend p (PostMessages (Some id) x_auth_token body) = (p, NoResponse))
    /\ (forall env events,
          forallb in_scope (journal (fst (run backend (boot env) events))) = true)
    /\ (forall st sent, getAttioClient (Some st) sent = (sent, inr (attioClient st))).
Proof.
  intros backend p token body Hc. split; [| split; [| split]].
  - cbn [handle]. unfold post_mcp. rewrite Hc. reflexivity.
  - intros id transport Hid. cbn [handle]. unfold post_messages.
    cbn [mbind option_bind]. rewrite Hid, Hc. reflexivity.
  - intros env events.
    destruct (scoped_run backend events (boot env)) as [scopes [Hj _]].
    + exists []. split; reflexivity.
    + rewrite Hj. apply in_scope_journal.
  - reflexivity.
Qed.

Lemma missing_credential_short_circuits_witness :
  credential (boot None) None = None
  /\ handle Sample.offline (boot None) (PostMcp None ListToolsRequest) =
     (boot None, NoResponse).
Proof.
  split; [reflexivity |].
  apply (proj1 (missing_credential_short_circuits Sample.offline (boot None) None
                  ListToolsRequest eq_refl)).
Defined.

(** * Further properties of the server *)

(** ** Objects *)

Lemma get_set_eq (k : string) (v : JSON) (members : list (string * JSON)) :
  Json.get k (Json.set k v members) = Some v.
Proof.
  induction members as [|[k' v'] rest IH]; cbn [Json.set Json.get].
  - rewrite String.eqb_refl. reflexivity.
  - destruct (String.eqb k k') eqn:E; cbn [Json.get].
    + rewrite String.eqb_refl. reflexivity.
    + rewrite E. exact IH.
Qed.

Lemma get_set_ne (k k' : string) (v : JSON) (members : list (string * JSON)) :
  k' <> k -> Json.get k' (Json.set k v members) = Json.get k' members.
Proof.
  intros Hne. induction members as [|[k0 v0] rest IH]; cbn [Json.set Json.get].
  - destruct (String.eqb_spec k' k); [contradiction | reflexivity].
  - destruct (String.eqb_spec k k0) as [-> | Hk]; cbn [Json.get].
    + destruct (String.eqb_spec k' k0); [contradiction | reflexivity].
    + destruct (String.eqb k' k0); [reflexivity | exact IH].
Qed.

Lemma set_keeps_keys (k : string) (v x : JSON) (members : list (string * JSON)) :
  Json.get k members = Some x ->
  map fst (Json.set k v members) = map fst members.
Proof.
  induction members as [|[k0 v0] rest IH]; cbn [Json.set Json.get]; [discriminate |].
  destruct (String.eqb_spec k k0) as [-> | Hk]; intros H; cbn [map fst].
  - reflexivity.
  - rewrite (IH H). reflexivity.
Qed.

(** ** [makeRequest] *)

(** X1. [makeRequest] returns a value exactly when the backend answered the
    one request it sent with an ok response whose body parses to that value;
    a rejected fetch, a response that is not ok and an unparsable body all
    end in a throw. *)
Theorem makeRequest_returns_iff :
  forall (backend : Backend) (this : AttioClient) (endpoint : string)
         (options : RequestInit) (sent sent' : list HttpRequest) (v : JSON),
    makeRequest backend this endpoint options sent = (sent', inr v) <->
    sent' = sent ++ [{| url := baseUrl this +:+ endpoint;
                        method := init_method options;
                        headers := request_headers this;
                        body := init_body options |}]
    /\ exists response,
         backend sent {| url := baseUrl this +:+ endpoint;
                         method := init_method options;
                         headers := request_headers this;
                         body := init_body options |} = FetchResolves response
         /\ ok response = true
         /\ json response = inr v.
Proof.
  intros backend this endpoint options sent sent' v.
  unfold makeRequest, bind, fetch. fold (request_headers this).
  destruct (backend sent _) as [message | response] eqn:Hb.
  - split; [intros H; discriminate H |].
    intros [_ [response [Hr _]]]. discriminate Hr.
  - destruct (ok response) eqn:Hok; cbn [negb]; unfold lift, throw.
    + split.
      * intros H. injection H as <- Hj. split; [reflexivity |].
        exists response. repeat split; assumption.
      * intros [-> [r [Hr [_ Hj]]]]. injection Hr as <-. rewrite Hj. reflexivity.
    + split.
      * destruct (text response); intros H; discriminate H.
      * intros [_ [r [Hr [Hok' _]]]]. injection Hr as <-. congruence.
Qed.

(** X2. A response that is not ok makes [makeRequest] throw; when its text
    can be read the message is
    [Attio API error: <status> <statusText> - <text>], and the JSON body is
    not consulted. *)
Theorem makeRequest_error_message :
  forall (backend : Backend) (this : AttioClient) (endpoint : string)
         (options : RequestInit) (sent : list HttpRequest)
         (response : HttpResponse) (errorText : string),
    backend sent {| url := baseUrl this +:+ endpoint;
                    method := init_method options;
                    headers := request_headers this;
                    body := init_body options |} = FetchResolves response ->
    ok response = false ->
    text response = inr errorText ->
    snd (makeRequest backend this endpoint options sent) =
    inl ("Attio API error: " +:+ pretty (status response) +:+ " "
           +:+ statusText response +:+ " - " +:+ errorText).
Proof.
  intros backend this endpoint options sent response errorText Hb Hok Ht.
  unfold makeRequest, bind, fetch. fold (request_headers this).
  rewrite Hb, Hok. cbn [negb]. unfold lift. rewrite Ht. reflexivity.
Qed.

Lemma makeRequest_error_message_witness :
  snd (makeRequest (Sample.answering (Sample.failure 404 "Not Found" "no such record"))
         Sample.client "/notes" {| init_method := "GET"; init_body := None |} []) =
  inl "Attio API error: 404 Not Found - no such record".
Proof.
  apply (makeRequest_error_message
           (Sample.answering (Sample.failure 404 "Not Found" "no such record"))
           Sample.client "/notes" {| init_method := "GET"; init_body := None |} []
           (Sample.failure 404 "Not Found" "no such record") "no such record");
    reflexivity.
Defined.

(** ** The dispatcher, case by case *)

(** Case analysis on the tool name, in the order of the switch. *)
Ltac tool_cases tool tac :=
  destruct (String.eqb tool "attio_search_people"); [tac |];
  destruct (String.eqb tool "attio_search_companies"); [tac |];
  destruct (String.eqb tool "attio_search_deals"); [tac |];
  destruct (String.eqb tool "attio_search_notes"); [tac |];
  destruct (String.eqb tool "attio_create_note"); [tac |];
  destruct (String.eqb tool "attio_create_person"); [tac |];
  destruct (String.eqb tool "attio_create_company"); [tac |];
  destruct (String.eqb tool "attio_update_person"); [tac |];
  destruct (String.eqb tool "attio_update_company"); [tac |].

Ltac unfold_catalog :=
  unfold registered;
  cbn [map tools existsb name SEARCH_PEOPLE_TOOL SEARCH_COMPANIES_TOOL
       SEARCH_DEALS_TOOL SEARCH_NOTES_TOOL CREATE_NOTE_TOOL CREATE_PERSON_TOOL
       CREATE_COMPANY_TOOL UPDATE_PERSON_TOOL UPDATE_COMPANY_TOOL].

Section DispatcherCases.

Variable backend : Backend.

(** Outside every run scope the switch throws before anything is sent. *)
Lemma tool_switch_none (tool : string) (args : ToolArguments)
    (sent : list HttpRequest) :
  tool_switch backend None tool args sent =
  (sent, inl (if registered tool then "Attio client not found in AsyncLocalStorage"
              else "Unknown tool: " +:+ tool)).
Proof.
  unfold tool_switch. unfold_catalog.
  tool_cases tool ltac:(reflexivity). reflexivity.
Qed.

Lemma searchNotes_sent (this : AttioClient) (query : string) (limit : Z)
    (sent : list HttpRequest) :
  fst (searchNotes backend this query limit sent) = sent ++ [notes_request this limit].
Proof.
  pose proof (makeRequest_sent backend this ("/notes?limit=" +:+ pretty limit)
                {| init_method := "GET"; init_body := None |} sent) as Hs.
  unfold searchNotes, bind.
  destruct (makeRequest backend this _ _ sent) as [sent' [e | raw]];
    cbn [fst] in Hs; subst sent'; [reflexivity |].
  destruct (blank query); [reflexivity |].
  unfold lift. destruct (array_filter _ _); reflexivity.
Qed.

(** Every adapter operation of the switch sends exactly one request, with
    the headers of its client, to an endpoint under the base URL of its
    client. *)
Lemma adapter_call_sent (client : AttioClient) (tool : string)
    (args : ToolArguments) (op : M JSON) (sent : list HttpRequest) :
  adapter_call backend client tool args = Some op ->
  exists request endpoint,
    fst (op sent) = sent ++ [request]
    /\ headers request = request_headers client
    /\ url request = baseUrl client +:+ endpoint.
Proof.
  unfold adapter_call.
  tool_cases tool
    ltac:(intros H; cbv iota in H; injection H as <-;
          first
            [ rewrite searchNotes_sent; eexists; eexists;
              repeat split; reflexivity
            | unfold searchPeople, searchCompanies, searchDeals, createNote,
                createPerson, createCompany, updatePerson, updateCompany;
              try match goal with |- context [no_keys ?f] => destruct (no_keys f) end;
              rewrite makeRequest_sent; eexists; eexists;
              repeat split; reflexivity ]).
  intros H. discriminate H.
Qed.

(** What a tool call sends: one request for a registered tool inside a run
    scope, nothing otherwise. *)
Lemma handler_sent_cases (store : option Store) (tool : string)
    (args : ToolArguments) (sent : list HttpRequest) :
  fst (CallToolRequestHandler backend store tool args sent) = sent
  \/ exists st request endpoint,
       store = Some st
       /\ registered tool = true
       /\ fst (CallToolRequestHandler backend store tool args sent) = sent ++ [request]
       /\ headers request = request_headers (attioClient st)
       /\ url request = baseUrl (attioClient st) +:+ endpoint.
Proof.
  destruct store as [st |].
  - destruct (adapter_call backend (attioClient st) tool args) as [op |] eqn:Hop.
    + right. destruct (adapter_call_sent _ tool args op sent Hop)
        as [request [endpoint [Hs [Hh Hu]]]].
      exists st, request, endpoint. repeat split; try assumption.
      * destruct (registered tool) eqn:Hr; [reflexivity |].
        apply (adapter_call_registered backend (attioClient st) tool args) in Hr.
        congruence.
      * rewrite (handler_sent backend st tool args op sent Hop). exact Hs.
    + left. unfold CallToolRequestHandler, try_catch.
      rewrite tool_switch_adapter, Hop. reflexivity.
  - left. unfold CallToolRequestHandler, try_catch.
    rewrite tool_switch_none. reflexivity.
Qed.

End DispatcherCases.

(** X3. Outside every run scope a call of any tool of the catalog ends as
    the error result [Error: Attio client not found in AsyncLocalStorage],
    and nothing is sent to the backend. *)
Theorem tool_call_outside_scope :
  forall (backend : Backend) (tool : string) (args : ToolArguments)
         (sent : list HttpRequest),
    registered tool = true ->
    CallToolRequestHandler backend None tool args sent =
    (sent, inr {| content :=
                    [TextContent "Error: Attio client not found in AsyncLocalStorage"];
                  isError := Some true |}).
Proof.
  intros backend tool args sent H.
  unfold CallToolRequestHandler, try_catch.
  rewrite tool_switch_none, H. reflexivity.
Qed.

Lemma tool_call_outside_scope_witness :
  registered "attio_create_company" = true
  /\ CallToolRequestHandler Sample.empty_listing None "attio_create_company"
       (Some [("name", JStr "Acme")]) [] =
     ([], inr {| content :=
                   [TextContent "Error: Attio client not found in AsyncLocalStorage"];
                 isError := Some true |}).
Proof.
  split; [reflexivity |].
  apply (tool_call_outside_scope Sample.empty_listing "attio_create_company"
           (Some [("name", JStr "Acme")]) []).
  reflexivity.
Defined.

(** X4. Inside a run scope a call of any tool of the catalog sends exactly
    one request to the backend, whether the call then succeeds or fails; the
    request carries the bearer token of the client of that scope and goes to
    an endpoint under its base URL. *)
Theorem tool_call_single_request :
  forall (backend : Backend) (st : Store) (tool : string) (args : ToolArguments)
         (sent : list HttpRequest),
    registered tool = true ->
    exists request endpoint,
      fst (CallToolRequestHandler backend (Some st) tool args sent) = sent ++ [request]
      /\ headers request =
           [("Authorization", "Bearer " +:+ apiKey (attioClient st));
            ("Content-Type", "application/json")]
      /\ url request = baseUrl (attioClient st) +:+ endpoint.
Proof.
  intros backend st tool args sent Hr.
  destruct (adapter_call backend (attioClient st) tool args) as [op |] eqn:Hop.
  - destruct (adapter_call_sent backend _ tool args op sent Hop)
      as [request [endpoint [Hs [Hh Hu]]]].
    exists request, endpoint.
    rewrite (handler_sent backend st tool args op sent Hop).
    repeat split; assumption.
  - apply (adapter_call_registered backend (attioClient st) tool args) in Hop.
    congruence.
Qed.

Lemma tool_call_single_request_witness :
  registered "attio_update_company" = true
  /\ exists request endpoint,
       fst (CallToolRequestHandler Sample.failing
              (Some {| attioClient := Sample.client |}) "attio_update_company"
              (Some [("record_id", JStr "c-17")]) []) = [] ++ [request]
       /\ headers request =
            [("Authorization", "Bearer " +:+ apiKey Sample.client);
             ("Content-Type", "application/json")]
       /\ url request = baseUrl Sample.client +:+ endpoint.
Proof.
  split; [reflexivity |].
  apply (tool_call_single_request Sample.failing {| attioClient := Sample.client |}
           "attio_update_company" (Some [("record_id", JStr "c-17")]) []).
  reflexivity.
Defined.

(** X5. Whatever the tool name, the arguments, the store and the backend,
    the handler returns a result with exactly one text block: either the
    pretty-printed JSON of a value with [isError] unset, or [Error: ]
    followed by a message with [isError] true. [isError] is never set to
    false and a success never carries more or fewer blocks than a failure. *)
Theorem result_envelope_shape :
  forall (backend : Backend) (store : option Store) (tool : string)
         (args : ToolArguments) (sent : list HttpRequest),
    exists sent' block flag,
      CallToolRequestHandler backend store tool args sent =
        (sent', inr {| content := [TextContent block]; isError := flag |})
      /\ ((flag = None /\ exists result, block = Json.stringify_pretty result)
          \/ (flag = Some true /\ exists message, block = "Error: " +:+ message)).
Proof.
  intros backend store tool args sent.
  unfold CallToolRequestHandler, try_catch.
  destruct store as [st |].
  - rewrite tool_switch_adapter.
    destruct (adapter_call backend (attioClient st) tool args) as [op |].
    + unfold bind. destruct (op sent) as [sent' [e | result]].
      * exists sent', ("Error: " +:+ e), (Some true). split; [reflexivity |].
        right. split; [reflexivity | exists e; reflexivity].
      * exists sent', (Json.stringify_pretty result), None. split; [reflexivity |].
        left. split; [reflexivity | exists result; reflexivity].
    + exists sent, ("Error: " +:+ ("Unknown tool: " +:+ tool)), (Some true).
      split; [reflexivity |].
      right. split; [reflexivity | eexists; reflexivity].
  - rewrite tool_switch_none.
    eexists sent, _, (Some true). split; [reflexivity |].
    right. split; [reflexivity | eexists; reflexivity].
Qed.

(** ** Search filters *)

Lemma set_not_empty (k : string) (v : JSON) (members : list (string * JSON)) :
  Json.set k v members <> [].
Proof.
  destruct members as [|[k' v'] rest]; cbn [Json.set]; [discriminate |].
  destruct (String.eqb k k'); discriminate.
Qed.

(** X6. The filter object of a record search is empty exactly when none of
    the filter arguments of that tool has the type the switch tests for: an
    argument of another type is dropped like an absent one, and any string
    (the empty one too) or number of the right type makes a filter. *)
Theorem filters_empty_iff :
  forall (args : ToolArguments),
    (people_filters args = [] <->
       as_string (arg args "query") = None /\ as_string (arg args "email") = None)
    /\ (companies_filters args = [] <->
          as_string (arg args "query") = None /\ as_string (arg args "domain") = None)
    /\ (deals_filters args = [] <->
          as_string (arg args "name") = None /\ as_string (arg args "stage") = None
          /\ as_number (arg args "minValue") = None
          /\ as_number (arg args "maxValue") = None).
Proof.
  intros args. split; [| split].
  - unfold people_filters.
    destruct (as_string (arg args "query")), (as_string (arg args "email"));
      (split; intros H);
      first [ reflexivity
            | repeat split; reflexivity
            | exfalso; exact (set_not_empty _ _ _ H)
            | decompose [and] H; discriminate ].
  - unfold companies_filters.
    destruct (as_string (arg args "query")), (as_string (arg args "domain"));
      (split; intros H);
      first [ reflexivity
            | repeat split; reflexivity
            | exfalso; exact (set_not_empty _ _ _ H)
            | decompose [and] H; discriminate ].
  - unfold deals_filters.
    destruct (as_string (arg args "name")), (as_string (arg args "stage")),
      (as_number (arg args "minValue")), (as_number (arg args "maxValue"));
      (split; intros H);
      first [ reflexivity
            | repeat split; reflexivity
            | exfalso; exact (set_not_empty _ _ _ H)
            | decompose [and] H; discriminate ].
Qed.

(** X7. A record search sends the [filter] member exactly when its filter
    object is not empty: the one request of the call is the POST to the
    records query of the object, with body [{limit}] for an empty filter
    object and [{filter, limit}], in that order, otherwise. Stated for
    arguments whose numbers are safe integers, which this model prints as
    the runtime does. *)
Theorem record_search_request :
  forall (backend : Backend) (st : Store) (args : ToolArguments)
         (sent : list HttpRequest) (tool object : string)
         (filters : list (string * JSON)),
    safe_numbers args = true ->
    In (tool, object, filters)
       [("attio_search_people", "people", people_filters args);
        ("attio_search_companies", "companies", companies_filters args);
        ("attio_search_deals", "deals", deals_filters args)] ->
    fst (CallToolRequestHandler backend (Some st) tool args sent) =
    sent ++ [{| url := baseUrl (attioClient st) +:+ "/objects/" +:+ object
                         +:+ "/records/query";
                method := "POST";
                headers := request_headers (attioClient st);
                body := Some (Json.stringify
                                (match filters with
                                 | [] => JObj [("limit", JNum (limit_or 25 args))]
                                 | _ => JObj [("filter", JObj filters);
                                              ("limit", JNum (limit_or 25 args))]
                                 end)) |}].
Proof.
  intros backend st args sent tool object filters _ Hin. cbn [In] in Hin.
  destruct Hin as [Heq | [Heq | [Heq | []]]]; injection Heq as <- <- <-.
  - rewrite (handler_sent backend st "attio_search_people" args
               (searchPeople backend (attioClient st) (people_filters args)
                  (limit_or 25 args)) sent eq_refl).
    unfold searchPeople.
    destruct (people_filters args); cbn [no_keys]; rewrite makeRequest_sent;
      reflexivity.
  - rewrite (handler_sent backend st "attio_search_companies" args
               (searchCompanies backend (attioClient st) (companies_filters args)
                  (limit_or 25 args)) sent eq_refl).
    unfold searchCompanies.
    destruct (companies_filters args); cbn [no_keys]; rewrite makeRequest_sent;
      reflexivity.
  - rewrite (handler_sent backend st "attio_search_deals" args
               (searchDeals backend (attioClient st) (deals_filters args)
                  (limit_or 25 args)) sent eq_refl).
    unfold searchDeals.
    destruct (deals_filters args); cbn [no_keys]; rewrite makeRequest_sent;
      reflexivity.
Qed.

Lemma record_search_request_witness :
  safe_numbers (Some [("stage", JStr "Won"); ("limit", JNum 5)]) = true
  /\ fst (CallToolRequestHandler Sample.offline (Some {| attioClient := Sample.client |})
         "attio_search_deals" (Some [("stage", JStr "Won"); ("limit", JNum 5)]) []) =
  [{| url := "https://api.attio.com/v2/objects/deals/records/query";
      method := "POST"; headers := Sample.auth_headers;
      body := Some ("{" +:+ Schema.q +:+ "filter" +:+ Schema.q +:+ ":{"
                      +:+ Schema.q +:+ "stage" +:+ Schema.q +:+ ":"
                      +:+ Schema.q +:+ "Won" +:+ Schema.q +:+ "},"
                      +:+ Schema.q +:+ "limit" +:+ Schema.q +:+ ":5}") |}].
Proof.
  split; [reflexivity |].
  apply (record_search_request Sample.offline {| attioClient := Sample.client |}
           (Some [("stage", JStr "Won"); ("limit", JNum 5)]) []
           "attio_search_deals" "deals"
           (deals_filters (Some [("stage", JStr "Won"); ("limit", JNum 5)]))).
  - reflexivity.
  - simpl. tauto.
Defined.

(** X8. The scalar filters go into the filter object as given, beside the
    free-text clause and whatever it is: the people search sets
    [email_addresses] to the email, the companies search sets [domains] to
    [{domain}], and the deals search sets [stage] to the stage and [value]
    to the bounds that are numbers, [$gte] for [minValue] and [$lte] for
    [maxValue], without comparing the two. *)
Theorem scalar_filters_verbatim :
  forall (args : ToolArguments),
    Json.get "email_addresses" (people_filters args) =
      match as_string (arg args "email") with
      | Some email => Some (JStr email)
      | None => None
      end
    /\ Json.get "domains" (companies_filters args) =
       match as_string (arg args "domain") with
       | Some domain => Some (JObj [("domain", JStr domain)])
       | None => None
       end
    /\ Json.get "stage" (deals_filters args) =
       match as_string (arg args "stage") with
       | Some stage => Some (JStr stage)
       | None => None
       end
    /\ Json.get "value" (deals_filters args) =
       match as_number (arg args "minValue"), as_number (arg args "maxValue") with
       | Some lo, Some hi => Some (JObj [("$gte", JNum lo); ("$lte", JNum hi)])
       | Some lo, None => Some (JObj [("$gte", JNum lo)])
       | None, Some hi => Some (JObj [("$lte", JNum hi)])
       | None, None => None
       end.
Proof.
  intros args. repeat split.
  - unfold people_filters.
    destruct (as_string (arg args "query")), (as_string (arg args "email"));
      reflexivity.
  - unfold companies_filters.
    destruct (as_string (arg args "query")), (as_string (arg args "domain"));
      reflexivity.
  - unfold deals_filters.
    destruct (as_string (arg args "name")), (as_string (arg args "stage")),
      (as_number (arg args "minValue")), (as_number (arg args "maxValue"));
      reflexivity.
  - unfold deals_filters.
    destruct (as_string (arg args "name")), (as_string (arg args "stage")),
      (as_number (arg args "minValue")), (as_number (arg args "maxValue"));
      reflexivity.
Qed.

(** ** Record values *)

Lemma get_set_string (k k' : string) (v : option string)
    (members : list (string * JSON)) :
  Json.get k' (set_string k v members) =
  if String.eqb k' k then
    match v with
    | Some s => if Js.truthy s then Some (JStr s) else Json.get k' members
    | None => Json.get k' members
    end
  else Json.get k' members.
Proof.
  unfold set_string.
  destruct (String.eqb_spec k' k) as [-> | Hne].
  - destruct v as [s |]; [| reflexivity].
    destruct (Js.truthy s); [apply get_set_eq | reflexivity].
  - destruct v as [s |]; [| reflexivity].
    destruct (Js.truthy s); [apply get_set_ne; exact Hne | reflexivity].
Qed.

Lemma get_set_array (k k' : string) (f : list JSON -> list JSON)
    (v : option (list JSON)) (members : list (string * JSON)) :
  Json.get k' (set_array k f v members) =
  if String.eqb k' k then
    match v with
    | Some l => Some (JArr (f l))
    | None => Json.get k' members
    end
  else Json.get k' members.
Proof.
  unfold set_array.
  destruct (String.eqb_spec k' k) as [-> | Hne].
  - destruct v as [l |]; [apply get_set_eq | reflexivity].
  - destruct v as [l |]; [apply get_set_ne; exact Hne | reflexivity].
Qed.

(** X9. The values sent for a person hold a member exactly for what was
    given: [name], [job_title] and [description] when the string is defined
    and not empty, [email_addresses] when the array is defined (an empty
    array too), [phone_numbers] likewise, each number wrapped as
    [{original_phone_number}], one entry per number in the same order; no
    other member is ever set. The same holds for a company with [name],
    [domains] and [description]. *)
Theorem record_values_members :
  forall (person : PersonData) (company : CompanyData),
    Json.get "name" (person_values person) =
      match person_name person with
      | Some s => if Js.truthy s then Some (JStr s) else None
      | None => None
      end
    /\ Json.get "email_addresses" (person_values person) =
       match person_email_addresses person with
       | Some l => Some (JArr l)
       | None => None
       end
    /\ Json.get "phone_numbers" (person_values person) =
       match person_phone_numbers person with
       | Some l => Some (JArr (map (fun n => JObj [("original_phone_number", n)]) l))
       | None => None
       end
    /\ Json.get "job_title" (person_values person) =
       match person_job_title person with
       | Some s => if Js.truthy s then Some (JStr s) else None
       | None => None
       end
    /\ Json.get "description" (person_values person) =
       match person_description person with
       | Some s => if Js.truthy s then Some (JStr s) else None
       | None => None
       end
    /\ (forall k,
          ~ In k ["name"; "email_addresses"; "phone_numbers"; "job_title";
                  "description"] ->
          Json.get k (person_values person) = None)
    /\ Json.get "name" (company_values company) =
       match company_name company with
       | Some s => if Js.truthy s then Some (JStr s) else None
       | None => None
       end
    /\ Json.get "domains" (company_values company) =
       match company_domains company with
       | Some l => Some (JArr l)
       | None => None
       end
    /\ Json.get "description" (company_values company) =
       match company_description company with
       | Some s => if Js.truthy s then Some (JStr s) else None
       | None => None
       end
    /\ (forall k,
          ~ In k ["name"; "domains"; "description"] ->
          Json.get k (company_values company) = None).
Proof.
  intros person company. unfold person_values, company_values.
  assert (Hne : forall k (ks : list string) s, ~ In k ks -> In s ks ->
                                               String.eqb k s = false).
  { intros k ks s Hk Hs. apply String.eqb_neq. intros ->. contradiction. }
  repeat split; try intros k Hk;
    repeat (first [rewrite get_set_string | rewrite get_set_array];
            try (rewrite !(Hne k _ _ Hk) by (simpl; tauto));
            cbn [String.eqb Ascii.eqb Bool.eqb]);
    cbn [Json.get];
    repeat match goal with
           | |- context [match ?o with Some _ => _ | None => _ end] => destruct o
           | |- context [if Js.truthy ?s then _ else _] => destruct (Js.truthy s)
           end; reflexivity.
Qed.

(** ** Creating and updating *)

(** X10. For the same arguments, creating and updating a person send the
    same body, [{data: {values}}] with the values of the person; the create
    is a POST to the collection and the update a PATCH to the collection
    path followed by [/] and the [record_id]. Nothing checks the
    [record_id]: when it is absent or not a string the PATCH goes to the
    collection path with a trailing [/]. Companies behave the same. *)
Theorem create_and_update_requests :
  forall (backend : Backend) (st : Store) (args : ToolArguments)
         (sent : list HttpRequest),
    fst (CallToolRequestHandler backend (Some st) "attio_create_person" args sent) =
      sent ++ [{| url := baseUrl (attioClient st) +:+ "/objects/people/records";
                  method := "POST";
                  headers := request_headers (attioClient st);
                  body := Some (Json.stringify
                    (JObj [("data", JObj [("values",
                       JObj (person_values (person_data args)))])])) |}]
    /\ fst (CallToolRequestHandler backend (Some st) "attio_update_person" args sent) =
      sent ++ [{| url := baseUrl (attioClient st) +:+ "/objects/people/records/"
                           +:+ match arg args "record_id" with
                               | Some (JStr id) => id
                               | _ => ""
                               end;
                  method := "PATCH";
                  headers := request_headers (attioClient st);
                  body := Some (Json.stringify
                    (JObj [("data", JObj [("values",
                       JObj (person_values (person_data args)))])])) |}]
    /\ fst (CallToolRequestHandler backend (Some st) "attio_create_company" args sent) =
      sent ++ [{| url := baseUrl (attioClient st) +:+ "/objects/companies/records";
                  method := "POST";
                  headers := request_headers (attioClient st);
                  body := Some (Json.stringify
                    (JObj [("data", JObj [("values",
                       JObj (company_values (company_data args)))])])) |}]
    /\ fst (CallToolRequestHandler backend (Some st) "attio_update_company" args sent) =
      sent ++ [{| url := baseUrl (attioClient st) +:+ "/objects/companies/records/"
                           +:+ match arg args "record_id" with
                               | Some (JStr id) => id
                               | _ => ""
                               end;
                  method := "PATCH";
                  headers := request_headers (attioClient st);
                  body := Some (Json.stringify
                    (JObj [("data", JObj [("values",
                       JObj (company_values (company_data args)))])])) |}].
Proof.
  intros backend st args sent.
  assert (Hid : string_or_empty args "record_id" =
                match arg args "record_id" with Some (JStr id) => id | _ => "" end).
  { unfold string_or_empty, as_string.
    destruct (arg args "record_id") as [[]|]; reflexivity. }
  split; [| split; [| split]].
  - rewrite (handler_sent backend st "attio_create_person" args
               (createPerson backend (attioClient st) (person_data args)) sent eq_refl).
    unfold createPerson. rewrite makeRequest_sent. reflexivity.
  - rewrite (handler_sent backend st "attio_update_person" args
               (updatePerson backend (attioClient st)
                  (string_or_empty args "record_id") (person_data args)) sent eq_refl).
    unfold updatePerson. rewrite makeRequest_sent, Hid. reflexivity.
  - rewrite (handler_sent backend st "attio_create_company" args
               (createCompany backend (attioClient st) (company_data args)) sent eq_refl).
    unfold createCompany. rewrite makeRequest_sent. reflexivity.
  - rewrite (handler_sent backend st "attio_update_company" args
               (updateCompany backend (attioClient st)
                  (string_or_empty args "record_id") (company_data args)) sent eq_refl).
    unfold updateCompany. rewrite makeRequest_sent, Hid. reflexivity.
Qed.

(** X11. Creating a note never rejects its arguments: the one request is
    the POST to [/notes] whose body holds [parent_object],
    [parent_record_id], [title] and [content] as the strings given, or the
    empty string for one that is absent or not a string, and [format] as the
    string given, or [plaintext] when it is absent, not a string or empty;
    the members come in the order [parent_object], [parent_record_id],
    [title], [format], [content]. *)
Theorem create_note_request :
  forall (backend : Backend) (st : Store) (args : ToolArguments)
         (sent : list HttpRequest),
    fst (CallToolRequestHandler backend (Some st) "attio_create_note" args sent) =
    sent ++ [{| url := baseUrl (attioClient st) +:+ "/notes";
                method := "POST";
                headers := request_headers (attioClient st);
                body := Some (Json.stringify
                  (JObj [("data", JObj
                     [("parent_object",
                       JStr (match arg args "parent_object" with
                             | Some (JStr s) => s | _ => "" end));
                      ("parent_record_id",
                       JStr (match arg args "parent_record_id" with
                             | Some (JStr s) => s | _ => "" end));
                      ("title",
                       JStr (match arg args "title" with
                             | Some (JStr s) => s | _ => "" end));
                      ("format",
                       JStr (match arg args "format" with
                             | Some (JStr "") => "plaintext"
                             | Some (JStr f) => f
                             | _ => "plaintext"
                             end));
                      ("content",
                       JStr (match arg args "content" with
                             | Some (JStr s) => s | _ => "" end))])])) |}].
Proof.
  intros backend st args sent.
  assert (Hs : forall k, string_or_empty args k =
                         match arg args k with Some (JStr s) => s | _ => "" end).
  { intros k. unfold string_or_empty, as_string.
    destruct (arg args k) as [[]|]; reflexivity. }
  rewrite (handler_sent backend st "attio_create_note" args
             (createNote backend (attioClient st) (note_data args)) sent eq_refl).
  unfold createNote. rewrite makeRequest_sent. unfold note_data.
  cbn [note_parent_object note_parent_record_id note_title note_content note_format
       init_method init_body].
  rewrite !Hs. unfold as_string.
  destruct (arg args "format") as [[| | | [|c f] | |]|]; reflexivity.
Qed.

(** ** More on the note search *)

Lemma filter_sublist {A} (f : A -> bool) (l : list A) : sublist (List.filter f l) l.
Proof.
  induction l as [|x l IH]; cbn [List.filter]; [constructor |].
  destruct (f x); [apply sublist_skip | apply sublist_cons]; exact IH.
Qed.

(** X12. Whatever the query, [searchNotes] returns the page it fetched with
    at most its [data] changed: the members keep their keys and their order,
    every member other than [data] keeps its value (pagination fields and
    the like pass through), and the notes under [data] are a subsequence of
    the notes fetched, in their order, so never more than were fetched. *)
Theorem searchNotes_keeps_page :
  forall (backend : Backend) (this : AttioClient) (query : string) (limit : Z)
         (sent : list HttpRequest) (response : HttpResponse)
         (members : list (string * JSON)) (notes : list JSON),
    backend sent (notes_request this limit) = FetchResolves response ->
    ok response = true ->
    json response = inr (JObj members) ->
    Json.get "data" members = Some (JArr notes) ->
    forallb not_null notes = true ->
    exists members' returned,
      snd (searchNotes backend this query limit sent) = inr (JObj members')
      /\ map fst members' = map fst members
      /\ (forall k, k <> "data" -> Json.get k members' = Json.get k members)
      /\ Json.get "data" members' = Some (JArr returned)
      /\ sublist returned notes
      /\ (length returned <= length notes)%nat.
Proof.
  intros backend this query limit sent response members notes Hb Hok Hjson Hdata Hn.
  assert (Hreq : makeRequest backend this ("/notes?limit=" +:+ pretty limit)
                   {| init_method := "GET"; init_body := None |} sent =
                 (sent ++ [notes_request this limit], inr (JObj members))).
  { apply (makeRequest_json backend this ("/notes?limit=" +:+ pretty limit)
             {| init_method := "GET"; init_body := None |} sent response);
      assumption. }
  destruct (guard_notes_listing members notes Hdata) as [Hg Hd].
  unfold searchNotes. erewrite bind_inr by exact Hreq. rewrite Hg, Hd.
  destruct (blank query).
  - exists members, notes. repeat split; try reflexivity; try assumption.
  - unfold bind, lift. rewrite (array_filter_matches _ notes Hn). cbn [ret snd].
    exists (Json.set "data"
              (JArr (List.filter (note_matches (Js.toLowerCase query)) notes)) members),
           (List.filter (note_matches (Js.toLowerCase query)) notes).
    split; [reflexivity | split; [| split; [| split; [| split]]]].
    + apply (set_keeps_keys "data" _ (JArr notes)). exact Hdata.
    + intros k Hk. apply get_set_ne. exact Hk.
    + apply get_set_eq.
    + apply filter_sublist.
    + apply sublist_length, filter_sublist.
Qed.

Lemma searchNotes_keeps_page_witness :
  exists members' returned,
    snd (searchNotes Sample.listing_notes Sample.client "agenda" 50 []) =
      inr (JObj members')
    /\ map fst members' = ["data"; "pagination"]
    /\ (forall k, k <> "data" ->
          Json.get k members' =
          Json.get k [("data", JArr [Sample.note1; Sample.note2; Sample.note3]);
                      ("pagination", JObj [])])
    /\ Json.get "data" members' = Some (JArr returned)
    /\ sublist returned [Sample.note1; Sample.note2; Sample.note3]
    /\ (length returned <= 3)%nat.
Proof.
  apply (searchNotes_keeps_page Sample.listing_notes Sample.client "agenda" 50 []
           (Sample.success Sample.notes_page)
           [("data", JArr [Sample.note1; Sample.note2; Sample.note3]);
            ("pagination", JObj [])]
           [Sample.note1; Sample.note2; Sample.note3]); reflexivity.
Defined.

Lemma trimStart_cases (s : string) :
  (all_space s = true /\ Js.trimStart s = "")
  \/ (all_space s = false
      /\ exists c t, Js.trimStart s = String c t /\ Js.is_space c = false).
Proof.
  induction s as [|c s IH]; [left; split; reflexivity |].
  cbn [all_space Js.trimStart]. destruct (Js.is_space c) eqn:Hc; cbn [andb].
  - exact IH.
  - right. split; [reflexivity |]. exists c, s. split; [reflexivity | exact Hc].
Qed.

(** A query is blank exactly when it consists of white space only. *)
Lemma blank_all_space (s : string) : blank s = all_space s.
Proof.
  unfold blank, Js.trim.
  destruct (trimStart_cases s) as [[Ha Ht] | [Ha [c [t [Ht Hc]]]]];
    rewrite Ha, Ht.
  - cbn [Js.trimEnd]. apply orb_true_r.
  - assert (Hs : Js.truthy s = true).
    { destruct s; [discriminate Ha | reflexivity]. }
    rewrite Hs. cbn [negb orb Js.trimEnd].
    destruct (Js.trimEnd t); [rewrite Hc |]; reflexivity.
Qed.

Lemma is_space_lower (c : ascii) : Js.is_space (Js.lower_char c) = Js.is_space c.
Proof. destruct c as [[] [] [] [] [] [] [] []]; reflexivity. Qed.

Lemma all_space_lower (s : string) : all_space (Js.toLowerCase s) = all_space s.
Proof.
  induction s as [|c s IH]; [reflexivity |].
  cbn [Js.toLowerCase all_space]. rewrite is_space_lower, IH. reflexivity.
Qed.

(** X13. The note search does not see the letter case of an ASCII query:
    two queries in the ASCII range with the same lower-case form give the
    same request and the same result, against any backend. (For ASCII text
    this model's [toLowerCase] and [trim] are the runtime's.) *)
Theorem searchNotes_query_case :
  forall (backend : Backend) (this : AttioClient) (query query' : string)
         (limit : Z) (sent : list HttpRequest),
    ascii_only query = true ->
    ascii_only query' = true ->
    Js.toLowerCase query = Js.toLowerCase query' ->
    searchNotes backend this query limit sent =
    searchNotes backend this query' limit sent.
Proof.
  intros backend this query query' limit sent _ _ H.
  assert (Hb : blank query = blank query').
  { rewrite !blank_all_space, <- (all_space_lower query), <- (all_space_lower query'), H.
    reflexivity. }
  unfold searchNotes. rewrite Hb, H. reflexivity.
Qed.

Lemma searchNotes_query_case_witness :
  ascii_only "NEEDLE" = true
  /\ ascii_only "needle" = true
  /\ searchNotes Sample.listing_notes Sample.client "NEEDLE" 50 [] =
     searchNotes Sample.listing_notes Sample.client "needle" 50 [].
Proof.
  split; [reflexivity | split; [reflexivity |]].
  apply (searchNotes_query_case Sample.listing_notes Sample.client
           "NEEDLE" "needle" 50 []); reflexivity.
Defined.

(** ** More on the transports *)

Section TransportCases.

Variable backend : Backend.

Lemma serve_call_sent (store : option Store) (tool : string)
    (args : ToolArguments) (sent : list HttpRequest) :
  fst (serve backend store (CallToolRequest tool args) sent) =
  fst (CallToolRequestHandler backend store tool args sent).
Proof.
  cbn [serve].
  destruct (handler_total backend store tool args sent) as [sent' [r Hr]].
  erewrite bind_inr by exact Hr. rewrite Hr. reflexivity.
Qed.

Lemma run_with_client_sent (p : Process) (key : string) (body : ProtocolMessage) :
  sent (fst (run_with_client backend p key body)) =
  fst (serve backend (Some {| attioClient := new_AttioClient p key |}) body (sent p)).
Proof.
  destruct (run_with_client_fresh backend p key body)
    as [_ [_ [_ [_ [_ [reply [Hs _]]]]]]].
  rewrite Hs. reflexivity.
Qed.

Lemma run_with_client_env (p : Process) (key : string) (body : ProtocolMessage) :
  ATTIO_API_KEY (fst (run_with_client backend p key body)) = ATTIO_API_KEY p.
Proof.
  unfold run_with_client. destruct (serve backend _ body (sent p)). reflexivity.
Qed.

(** What a request outside the two posting routes, or a post that is
    turned away, does to the outbound log: nothing. *)
Lemma handle_sent_cases (p : Process) (e : Inbound) :
  sent (fst (handle backend p e)) = sent p
  \/ exists key body,
       ((exists token, e = PostMcp token body /\ credential p token = Some key)
        \/ (exists id token, e = PostMessages id token body
                             /\ credential p token = Some key))
       /\ sent (fst (handle backend p e)) =
          fst (serve backend (Some {| attioClient := new_AttioClient p key |})
                 body (sent p)).
Proof.
  destruct e as [token body | | | generated | generated | id token body];
    cbn [handle]; try (left; reflexivity).
  - unfold post_mcp. destruct (credential p token) as [key |] eqn:Hc;
      [| left; reflexivity].
    right. exists key, body. split; [left; exists token; tauto |].
    apply run_with_client_sent.
  - unfold post_messages.
    destruct (id ≫= (fun id => transports p !! id)); [| left; reflexivity].
    destruct (credential p token) as [key |] eqn:Hc; [| left; reflexivity].
    right. exists key, body. split; [right; exists id, token; tauto |].
    apply run_with_client_sent.
Qed.

Lemma handle_env (p : Process) (e : Inbound) :
  ATTIO_API_KEY (fst (handle backend p e)) = ATTIO_API_KEY p.
Proof.
  destruct e as [token body | | | generated | generated | id token body];
    cbn [handle]; try reflexivity.
  - unfold post_mcp. destruct (credential p token); [| reflexivity].
    apply run_with_client_env.
  - unfold post_messages.
    destruct (id ≫= (fun id => transports p !! id)); [| reflexivity].
    destruct (credential p token); [| reflexivity].
    apply run_with_client_env.
Qed.

Lemma handle_transports (p : Process) (e : Inbound) (id : string) :
  transports (fst (handle backend p e)) !! id =
  track id (transports p !! id) [e].
Proof.
  destruct e as [token body | | | generated | generated | sid token body];
    cbn [handle track fold_left]; try reflexivity.
  - unfold post_mcp. destruct (credential p token) as [key |]; [| reflexivity].
    destruct (run_with_client_fresh backend p key body) as [_ [_ [Ht _]]].
    rewrite Ht. reflexivity.
  - cbn [get_sse fst transports sessionId].
    destruct (String.eqb_spec generated id) as [-> | Hne].
    + apply lookup_insert_eq.
    + apply lookup_insert_ne. exact Hne.
  - cbn [sse_close fst transports].
    destruct (String.eqb_spec generated id) as [-> | Hne].
    + apply lookup_delete_eq.
    + apply lookup_delete_ne. exact Hne.
  - unfold post_messages.
    destruct (sid ≫= (fun id => transports p !! id)); [| reflexivity].
    destruct (credential p token) as [key |]; [| reflexivity].
    destruct (run_with_client_fresh backend p key body) as [_ [_ [Ht _]]].
    rewrite Ht. reflexivity.
Qed.

End TransportCases.

(** X14. The credential of a request is the one its backend call carries:
    a tool call of the catalog posted with a credential, on [/mcp] or on an
    open session of [/messages], adds exactly one request to the outbound
    log, to an endpoint under the Attio base URL, whose [Authorization]
    header is [Bearer ] followed by the credential resolved for this very
    request. *)
Theorem outbound_carries_request_credential :
  forall (backend : Backend) (p : Process) (x_auth_token : option string)
         (key tool : string) (args : ToolArguments),
    credential p x_auth_token = Some key ->
    registered tool = true ->
    exists request endpoint,
      headers request =
        [("Authorization", "Bearer " +:+ key); ("Content-Type", "application/json")]
      /\ url request = "https://api.attio.com/v2" +:+ endpoint
      /\ sent (fst (handle backend p (PostMcp x_auth_token (CallToolRequest tool args))))
         = sent p ++ [request]
      /\ (forall id transport,
            transports p !! id = Some transport ->
            sent (fst (handle backend p
                         (PostMessages (Some id) x_auth_token
                            (CallToolRequest tool args))))
            = sent p ++ [request]).
Proof.
  intros backend p token key tool args Hc Hr.
  destruct (adapter_call backend (new_AttioClient p key) tool args) as [op |] eqn:Hop.
  - destruct (adapter_call_sent backend _ tool args op (sent p) Hop)
      as [request [endpoint [Hs [Hh Hu]]]].
    assert (Hrun : sent (fst (run_with_client backend p key (CallToolRequest tool args)))
                   = sent p ++ [request]).
    { rewrite run_with_client_sent, serve_call_sent.
      rewrite (handler_sent backend {| attioClient := new_AttioClient p key |}
                 tool args op (sent p) Hop).
      exact Hs. }
    exists request, endpoint. split; [exact Hh | split; [exact Hu | split]].
    + cbn [handle]. unfold post_mcp. rewrite Hc. exact Hrun.
    + intros id transport Hid. cbn [handle]. unfold post_messages.
      cbn [mbind option_bind]. rewrite Hid, Hc. exact Hrun.
  - apply (adapter_call_registered backend (new_AttioClient p key) tool args) in Hop.
    congruence.
Qed.

Lemma outbound_carries_request_credential_witness :
  exists request endpoint,
    headers request =
      [("Authorization", "Bearer " +:+ "alice"); ("Content-Type", "application/json")]
    /\ url request = "https://api.attio.com/v2" +:+ endpoint
    /\ sent (fst (handle Sample.offline (boot None)
                    (PostMcp (Some "alice")
                       (CallToolRequest "attio_search_notes" None))))
       = sent (boot None) ++ [request]
    /\ (forall id transport,
          transports (boot None) !! id = Some transport ->
          sent (fst (handle Sample.offline (boot None)
                       (PostMessages (Some id) (Some "alice")
                          (CallToolRequest "attio_search_notes" None))))
          = sent (boot None) ++ [request]).
Proof.
  apply (outbound_carries_request_credential Sample.offline (boot None)
           (Some "alice") "alice" "attio_search_notes" None); reflexivity.
Defined.

(** X15. When the process has a default key in its environment, the
    [x-auth-token] header plays no part: over any sequence of inbound
    events, the process and every outcome are the same as if no request had
    carried the header. *)
Theorem env_key_overrides_header :
  forall (backend : Backend) (events : list Inbound) (p : Process) (key : string),
    ATTIO_API_KEY p = Some key ->
    Js.truthy key = true ->
    run backend p events = run backend p (map strip_token events).
Proof.
  intros backend events. induction events as [|e rest IH]; intros p key Hk Ht;
    [reflexivity |].
  assert (Hcred : forall token, credential p token = Some key).
  { intros token. unfold credential, Js.or_else. rewrite Hk, Ht. reflexivity. }
  assert (He : handle backend p (strip_token e) = handle backend p e).
  { destruct e as [token body | | | generated | generated | id token body];
      cbn [strip_token handle]; try reflexivity.
    - unfold post_mcp. rewrite !Hcred. reflexivity.
    - unfold post_messages. rewrite !Hcred. reflexivity. }
  cbn [map run]. rewrite He.
  destruct (handle backend p e) as [p' o] eqn:Hh.
  assert (Hk' : ATTIO_API_KEY p' = Some key).
  { rewrite <- Hk. change p' with (fst (p', o)). rewrite <- Hh. apply handle_env. }
  rewrite (IH p' key Hk' Ht). reflexivity.
Qed.

Lemma env_key_overrides_header_witness :
  run Sample.offline (boot (Some "default")) Sample.two_posts =
  run Sample.offline (boot (Some "default")) (map strip_token Sample.two_posts).
Proof.
  apply (env_key_overrides_header Sample.offline Sample.two_posts
           (boot (Some "default")) "default"); reflexivity.
Defined.

(** X16. The session map follows the opens and closes and nothing else:
    after any sequence of inbound events the entry of an id is the
    transport of the last open under that id if no close of the id came
    after it, absent if one did, and otherwise what it was before. Posts,
    whatever their outcome, and events of other ids leave it alone. *)
Theorem session_map_tracks_connections :
  forall (backend : Backend) (events : list Inbound) (p : Process) (id : string),
    transports (fst (run backend p events)) !! id =
    track id (transports p !! id) events.
Proof.
  intros backend events. induction events as [|e rest IH]; intros p id;
    [reflexivity |].
  rewrite run_cons, IH, handle_transports. reflexivity.
Qed.

(** X17. A [GET] or a [DELETE] on [/mcp] is answered 405 with the
    method-not-allowed envelope and changes nothing: the process after a
    sequence of events is the process after the same sequence without
    them. *)
Theorem probes_change_nothing :
  forall (backend : Backend) (events : list Inbound) (p : Process),
    (forall e, is_probe e = true ->
       handle backend p e =
       (p, JsonResponse 405
             (JObj [("jsonrpc", JStr "2.0");
                    ("error", JObj [("code", JNum (-32000));
                                    ("message", JStr "Method not allowed.")]);
                    ("id", JNull)])))
    /\ fst (run backend p events) =
       fst (run backend p (List.filter (fun e => negb (is_probe e)) events)).
Proof.
  intros backend events p. split.
  - intros e He. destruct e; try discriminate He; reflexivity.
  - revert p. induction events as [|e rest IH]; intros p; [reflexivity |].
    cbn [List.filter]. destruct (is_probe e) eqn:He; cbn [negb].
    + rewrite run_cons.
      assert (Hp : fst (handle backend p e) = p).
      { destruct e; try discriminate He; reflexivity. }
      rewrite Hp. apply IH.
    + rewrite !run_cons. apply IH.
Qed.

(** X18. Only tool calls reach the backend, and each at most once: over any
    sequence of inbound events the outbound log grows by no more than the
    number of posts whose body is a tool call. Listing the tools, any other
    protocol message, opening or closing a session and every request that
    is turned away send nothing. *)
Theorem backend_calls_bounded :
  forall (backend : Backend) (events : list Inbound) (p : Process),
    (length (sent (fst (run backend p events))) <=
     length (sent p) + length (List.filter is_call events))%nat.
Proof.
  intros backend events. induction events as [|e rest IH]; intros p.
  - cbn [run fst List.filter length]. lia.
  - rewrite run_cons. specialize (IH (fst (handle backend p e))).
    assert (Hstep : (length (sent (fst (handle backend p e))) <=
                     length (sent p) + (if is_call e then 1 else 0))%nat).
    { destruct (handle_sent_cases backend p e)
        as [Hs | [key [body [Hev Hs]]]]; rewrite Hs.
      - destruct (is_call e); lia.
      - destruct body as [| tool args |].
        + cbn [serve fst]. unfold bind, ListToolsRequestHandler, ret. cbn [fst].
          destruct (is_call e); lia.
        + assert (Hcall : is_call e = true).
          { destruct Hev as [[token [-> _]] | [id [token [-> _]]]]; reflexivity. }
          rewrite Hcall, serve_call_sent.
          destruct (handler_sent_cases backend
                      (Some {| attioClient := new_AttioClient p key |})
                      tool args (sent p))
            as [Hh | [st [request [endpoint [_ [_ [Hh _]]]]]]]; rewrite Hh.
          * lia.
          * rewrite length_app. cbn [length]. lia.
        + cbn [serve ret fst]. destruct (is_call e); lia. }
    cbn [List.filter]. destruct (is_call e); cbn [length] in *; lia.
Qed.

(** ** Defaults, and failures of the backend *)

Lemma arg_supply_eq (k : string) (v : JSON) (args : ToolArguments) :
  arg (supply k v args) k = Some v.
Proof. unfold supply. cbn [arg]. apply get_set_eq. Qed.

Lemma arg_supply_ne (k k' : string) (v : JSON) (args : ToolArguments) :
  k' <> k -> arg (supply k v args) k' = arg args k'.
Proof.
  intros H. unfold supply. cbn [arg]. rewrite get_set_ne by exact H.
  destruct args; reflexivity.
Qed.

(** X19. The defaults the catalog advertises are the ones the switch
    applies: for each of the four search tools, a call whose [limit] is
    absent or not a number gives the same request and the same result as the
    call with [limit] set to the [default] of the tool's schema, and a
    [attio_create_note] call whose [format] is absent or not a string gives
    the same as the call with [format] set to the schema's default. *)
Theorem advertised_defaults_applied :
  forall (backend : Backend) (store : option Store) (args : ToolArguments)
         (sent : list HttpRequest),
    (as_number (arg args "limit") = None ->
     forall tool,
       In tool [SEARCH_PEOPLE_TOOL; SEARCH_COMPANIES_TOOL; SEARCH_DEALS_TOOL;
                SEARCH_NOTES_TOOL] ->
       exists default,
         schema_default tool "limit" = Some default
         /\ CallToolRequestHandler backend store (name tool) args sent =
            CallToolRequestHandler backend store (name tool)
              (supply "limit" default args) sent)
    /\ (as_string (arg args "format") = None ->
        exists default,
          schema_default CREATE_NOTE_TOOL "format" = Some default
          /\ CallToolRequestHandler backend store "attio_create_note" args sent =
             CallToolRequestHandler backend store "attio_create_note"
               (supply "format" default args) sent).
Proof.
  intros backend store args sent. split.
  - intros Hl tool Hin.
    assert (Hlim : forall d, limit_or d (supply "limit" (JNum d) args) = limit_or d args).
    { intros d. unfold limit_or. rewrite arg_supply_eq, Hl. reflexivity. }
    cbn [In] in Hin. destruct Hin as [<- | [<- | [<- | [<- | []]]]].
    + exists (JNum 25). split; [reflexivity |].
      unfold CallToolRequestHandler. f_equal.
      cbn [name SEARCH_PEOPLE_TOOL]. unfold tool_switch.
      cbn [String.eqb Ascii.eqb Bool.eqb]. unfold people_filters.
      rewrite !(arg_supply_ne "limit") by discriminate. rewrite Hlim. reflexivity.
    + exists (JNum 25). split; [reflexivity |].
      unfold CallToolRequestHandler. f_equal.
      cbn [name SEARCH_COMPANIES_TOOL]. unfold tool_switch.
      cbn [String.eqb Ascii.eqb Bool.eqb]. unfold companies_filters.
      rewrite !(arg_supply_ne "limit") by discriminate. rewrite Hlim. reflexivity.
    + exists (JNum 25). split; [reflexivity |].
      unfold CallToolRequestHandler. f_equal.
      cbn [name SEARCH_DEALS_TOOL]. unfold tool_switch.
      cbn [String.eqb Ascii.eqb Bool.eqb]. unfold deals_filters.
      rewrite !(arg_supply_ne "limit") by discriminate. rewrite Hlim. reflexivity.
    + exists (JNum 50). split; [reflexivity |].
      unfold CallToolRequestHandler. f_equal.
      cbn [name SEARCH_NOTES_TOOL]. unfold tool_switch.
      cbn [String.eqb Ascii.eqb Bool.eqb]. unfold string_or_empty.
      rewrite !(arg_supply_ne "limit") by discriminate. rewrite Hlim. reflexivity.
  - intros Hf. exists (JStr "plaintext"). split; [reflexivity |].
    unfold CallToolRequestHandler. f_equal. unfold tool_switch.
    cbn [String.eqb Ascii.eqb Bool.eqb]. unfold note_data, string_or_empty.
    rewrite !(arg_supply_ne "format") by discriminate.
    rewrite arg_supply_eq, Hf. reflexivity.
Qed.

Lemma advertised_defaults_applied_witness :
  as_number (arg (Some [("query", JStr "ada"); ("limit", JStr "ten")]) "limit") = None
  /\ exists default,
       schema_default SEARCH_PEOPLE_TOOL "limit" = Some default
       /\ CallToolRequestHandler Sample.empty_listing
            (Some {| attioClient := Sample.client |}) (name SEARCH_PEOPLE_TOOL)
            (Some [("query", JStr "ada"); ("limit", JStr "ten")]) [] =
          CallToolRequestHandler Sample.empty_listing
            (Some {| attioClient := Sample.client |}) (name SEARCH_PEOPLE_TOOL)
            (supply "limit" default (Some [("query", JStr "ada"); ("limit", JStr "ten")]))
            [].
Proof.
  split; [reflexivity |].
  apply (proj1 (advertised_defaults_applied Sample.empty_listing
                  (Some {| attioClient := Sample.client |})
                  (Some [("query", JStr "ada"); ("limit", JStr "ten")]) [])).
  - reflexivity.
  - simpl. tauto.
Defined.

(** X20. The text of a note search never leaves the process: the one
    request of an [attio_search_notes] call is a GET of [/notes?limit=...]
    without a body, and it is the same for any two calls that agree on
    [limit], whatever their [query] and other arguments. For a limit that is
    a safe integer, or absent or not a number, the URL ends in the digits of
    the limit, or in 50. *)
Theorem note_search_request_ignores_query :
  forall (backend : Backend) (st : Store) (args : ToolArguments)
         (sent : list HttpRequest),
    exists digits,
      fst (CallToolRequestHandler backend (Some st) "attio_search_notes" args sent) =
      sent ++ [{| url := baseUrl (attioClient st) +:+ "/notes?limit=" +:+ digits;
                  method := "GET";
                  headers := request_headers (attioClient st);
                  body := None |}]
      /\ (forall args',
            arg args' "limit" = arg args "limit" ->
            fst (CallToolRequestHandler backend (Some st) "attio_search_notes"
                   args' sent) =
            fst (CallToolRequestHandler backend (Some st) "attio_search_notes"
                   args sent))
      /\ (safe_limit args = true ->
          digits = pretty (match arg args "limit" with
                           | Some (JNum n) => n
                           | _ => 50
                           end)).
Proof.
  intros backend st args sent.
  assert (Hs : forall a,
             fst (CallToolRequestHandler backend (Some st) "attio_search_notes" a sent) =
             sent ++ [notes_request (attioClient st)
                        (match arg a "limit" with Some (JNum n) => n | _ => 50 end)]).
  { intros a.
    rewrite (handler_sent backend st "attio_search_notes" a
               (searchNotes backend (attioClient st) (string_or_empty a "query")
                  (limit_or 50 a)) sent eq_refl).
    rewrite searchNotes_sent. unfold limit_or, as_number.
    destruct (arg a "limit") as [[]|]; reflexivity. }
  exists (pretty (match arg args "limit" with Some (JNum n) => n | _ => 50 end)).
  split; [apply Hs | split].
  - intros args' Heq. rewrite !Hs, Heq. reflexivity.
  - intros _. reflexivity.
Qed.

Section BackendDown.

Variable backend : Backend.
Variable outcome : FetchOutcome.
Variable message : Fault.
Hypothesis always : forall sent request, backend sent request = outcome.
Hypothesis fails : failure_message outcome = Some message.

Lemma makeRequest_down (this : AttioClient) (endpoint : string)
    (options : RequestInit) (sent : list HttpRequest) :
  snd (makeRequest backend this endpoint options sent) = inl message.
Proof.
  unfold makeRequest, bind, fetch. rewrite always.
  revert fails. unfold failure_message.
  destruct outcome as [m | response].
  - intros H. injection H as ->. reflexivity.
  - destruct (ok response); [discriminate |]. cbn [negb]. unfold lift, throw.
    destruct (text response); [discriminate |].
    intros H. injection H as ->. reflexivity.
Qed.

Lemma searchNotes_down (this : AttioClient) (query : string) (limit : Z)
    (sent : list HttpRequest) :
  snd (searchNotes backend this query limit sent) = inl message.
Proof.
  pose proof (makeRequest_down this ("/notes?limit=" +:+ pretty limit)
                {| init_method := "GET"; init_body := None |} sent) as H.
  unfold searchNotes, bind.
  destruct (makeRequest backend this _ _ sent) as [sent' [e | raw]];
    cbn [snd] in H; [| discriminate H].
  cbn [snd]. exact H.
Qed.

Lemma adapter_call_down (client : AttioClient) (tool : string)
    (args : ToolArguments) (op : M JSON) (sent : list HttpRequest) :
  adapter_call backend client tool args = Some op ->
  snd (op sent) = inl message.
Proof.
  unfold adapter_call.
  tool_cases tool
    ltac:(intros H; cbv iota in H; injection H as <-;
          first
            [ apply searchNotes_down
            | unfold searchPeople, searchCompanies, searchDeals, createNote,
                createPerson, createCompany, updatePerson, updateCompany;
              try match goal with |- context [no_keys ?f] => destruct (no_keys f) end;
              apply makeRequest_down ]).
  intros H. discriminate H.
Qed.

End BackendDown.

(** X21. A backend that cannot be reached, or that answers every request
    with the same response that is not ok, makes every tool of the catalog
    end as an error result that carries the cause: the message of the
    rejected fetch, or
    [Attio API error: <status> <statusText> - <text of the response>]. No
    tool retries: the one request of the call is all that is sent. *)
Theorem backend_failure_reported :
  forall (backend : Backend) (outcome : FetchOutcome) (message : Fault)
         (st : Store) (tool : string) (args : ToolArguments)
         (sent : list HttpRequest),
    (forall sent request, backend sent request = outcome) ->
    failure_message outcome = Some message ->
    registered tool = true ->
    exists request,
      CallToolRequestHandler backend (Some st) tool args sent =
      (sent ++ [request],
       inr {| content := [TextContent ("Error: " +:+ message)];
              isError := Some true |}).
Proof.
  intros backend outcome message st tool args sent Ha Hf Hr.
  destruct (adapter_call backend (attioClient st) tool args) as [op |] eqn:Hop.
  - destruct (adapter_call_sent backend _ tool args op sent Hop)
      as [request [endpoint [Hs _]]].
    pose proof (adapter_call_down backend outcome message Ha Hf _ tool args op sent Hop)
      as Hd.
    exists request.
    rewrite (handler_of_adapter backend st tool args op sent Hop).
    destruct (op sent) as [sent' [e | result]]; cbn [fst snd] in Hs, Hd;
      [| discriminate Hd].
    injection Hd as ->. rewrite Hs. reflexivity.
  - apply (adapter_call_registered backend (attioClient st) tool args) in Hop.
    congruence.
Qed.

Lemma backend_failure_reported_witness :
  exists request,
    CallToolRequestHandler Sample.failing (Some {| attioClient := Sample.client |})
      "attio_search_companies" (Some [("domain", JStr "acme.com")]) [] =
    ([] ++ [request],
     inr {| content :=
              [TextContent ("Error: "
                 +:+ "Attio API error: 500 Internal Server Error - boom")];
            isError := Some true |}).
Proof.
  apply (backend_failure_reported Sample.failing
           (FetchResolves (Sample.failure 500 "Internal Server Error" "boom"))
           "Attio API error: 500 Internal Server Error - boom"
           {| attioClient := Sample.client |} "attio_search_companies"
           (Some [("domain", JStr "acme.com")]) []);
    [intros; reflexivity | reflexivity | reflexivity].
Defined.

(** ** C4: the note search on a page of notes *)




(** ** C1: one client per request, also when requests overlap *)

Section OverlapFacts.

Variable backend : Backend.





Lemma handle_quiet (p : Process) (e : Inbound) :
  match e with PostMcp _ _ | PostMessages _ _ _ => False | _ => True end ->
  journal (fst (handle backend p e)) = journal p
  /\ allocated (fst (handle backend p e)) = allocated p.
Proof. destruct e; intros H; try contradiction; split; reflexivity. Qed.





End OverlapFacts.



